(** * fynesse.address: price prediction pipeline

    A shallow embedding of [src/fynesse/address.py] and the properties of
    its specification.

    Conventions of the embedding.
    - A Python call that may raise returns a [result]; the functions that
      also print or hold a database connection run in the monad [M] over a
      [World] (standard output and the connections that are open).
    - Numbers.  The code computes in binary64, and the file has two
      embeddings of its arithmetic.  The module [np] has the numbers the
      floats stand for: a finite [np.float64] is an exact rational ([Qc]),
      and the three special values that the code can produce by dividing
      by zero are kept ([PInf], [NInf], [NaN]); rounding and overflow are
      not modelled there, and there is one zero.  What the functions
      compute up to rounding is stated on it: the structure of the loops
      and of the pipeline, the least-squares fit.  The module [binary64]
      has the loop of [cross_val] on the floats of the machine, with the
      regression library as a parameter: what depends on rounding, on
      overflow or on the sign of a zero is stated on it.
    - The collaborators that are not part of the file ([fynesse.access],
      [fynesse.assess], pandas' [corr], sklearn's [PCA]) are fields of the
      record [Services]; statsmodels' ridge estimator is modelled by its
      normal equations. *)

From Stdlib Require Import List String ZArith QArith Qcanon Qcabs.
From Stdlib Require Import Lia Permutation Bool Arith.
From Stdlib Require PrimFloat FloatOps FloatAxioms SpecFloat Uint63.
Import ListNotations.
Close Scope Qc_scope.
Close Scope Q_scope.
Open Scope nat_scope.
Open Scope list_scope.

Set Implicit Arguments.

(** ** Python results and exceptions *)

Module Py.

(** An exception: its class name and the argument it was raised with. *)
Record exception : Type := Exception { cls : string; msg : string }.

(** [str(e)]: the argument; a [KeyError] shows its key as [repr] does,
    between quotes. *)
Definition str (e : exception) : string :=
  if String.eqb (cls e) "KeyError" then ("'" ++ msg e ++ "'")%string else msg e.

Inductive result (A : Type) : Type :=
| Ok (a : A)
| Raise (e : exception).
Arguments Ok {A} a.
Arguments Raise {A} e.

Definition bind {A B} (r : result A) (k : A -> result B) : result B :=
  match r with
  | Ok a => k a
  | Raise e => Raise e
  end.

Definition raises {A} (r : result A) : Prop :=
  exists e, r = Raise e.

Definition returns {A} (r : result A) : Prop :=
  exists a, r = Ok a.

Definition ValueError := Exception "ValueError".
Definition TypeError := Exception "TypeError".
Definition IndexError := Exception "IndexError".
Definition KeyError := Exception "KeyError".
Definition ZeroDivisionError := Exception "ZeroDivisionError".

(** [l[i]] on a sequence. *)
Definition getitem {A} (l : list A) (i : nat) : result A :=
  match nth_error l i with
  | Some a => Ok a
  | None => Raise (IndexError "index out of range")
  end.

End Py.

Import Py.

Declare Scope py_scope.
Delimit Scope py_scope with py.
Notation "x <- r ;; k" := (Py.bind r (fun x => k))
  (at level 61, r at next level, right associativity) : py_scope.

(** ** numpy: floats and the array operations the file uses *)

Module np.

Inductive float64 : Type :=
| Fin (q : Qc)
| PInf
| NInf
| NaN.

Definition isfinite (x : float64) : bool :=
  match x with Fin _ => true | _ => false end.

Definition Qcltb (a b : Qc) : bool :=
  match (a ?= b)%Qc with Lt => true | _ => false end.

Definition Qceqb (a b : Qc) : bool :=
  match (a ?= b)%Qc with Eq => true | _ => false end.

Definition zero : float64 := Fin 0%Qc.

Definition of_Z (z : Z) : float64 := Fin (Q2Qc (inject_Z z)).

Definition of_nat (n : nat) : float64 := of_Z (Z.of_nat n).

Definition neg (x : float64) : float64 :=
  match x with
  | Fin q => Fin (- q)%Qc
  | PInf => NInf
  | NInf => PInf
  | NaN => NaN
  end.

Definition add (x y : float64) : float64 :=
  match x, y with
  | NaN, _ | _, NaN => NaN
  | Fin a, Fin b => Fin (a + b)%Qc
  | PInf, NInf | NInf, PInf => NaN
  | PInf, _ | _, PInf => PInf
  | NInf, _ | _, NInf => NInf
  end.

Definition sub (x y : float64) : float64 := add x (neg y).

(** The sign of a finite number as an infinity, [NaN] for zero. *)
Definition signed_inf (q : Qc) (pos : float64) : float64 :=
  if Qceqb q 0%Qc then NaN
  else if Qcltb 0%Qc q then pos else neg pos.

Definition mul (x y : float64) : float64 :=
  match x, y with
  | NaN, _ | _, NaN => NaN
  | Fin a, Fin b => Fin (a * b)%Qc
  | Fin a, PInf | PInf, Fin a => signed_inf a PInf
  | Fin a, NInf | NInf, Fin a => signed_inf a NInf
  | PInf, PInf | NInf, NInf => PInf
  | PInf, NInf | NInf, PInf => NInf
  end.

(** Division of [np.float64]: a zero divisor gives an infinity or [NaN]
    (with a RuntimeWarning), it does not raise. *)
Definition div (x y : float64) : float64 :=
  match x, y with
  | NaN, _ | _, NaN => NaN
  | Fin a, Fin b =>
      if Qceqb b 0%Qc then signed_inf a PInf else Fin (a / b)%Qc
  | Fin _, _ => zero
  | PInf, Fin b => if Qcltb b 0%Qc then NInf else PInf
  | NInf, Fin b => if Qcltb b 0%Qc then PInf else NInf
  | _, _ => NaN
  end.

Definition abs (x : float64) : float64 :=
  match x with
  | Fin q => Fin (Qcabs q)
  | PInf | NInf => PInf
  | NaN => NaN
  end.

(** [x > y]: every comparison with [NaN] is [False]. *)
Definition gt (x y : float64) : bool :=
  match x, y with
  | Fin a, Fin b => Qcltb b a
  | PInf, Fin _ | PInf, NInf | Fin _, NInf => true
  | _, _ => false
  end.

(** [np.cumsum]. *)
Fixpoint cumsum_from (acc : float64) (l : list float64) : list float64 :=
  match l with
  | [] => []
  | x :: l' => add acc x :: cumsum_from (add acc x) l'
  end.

Definition cumsum (l : list float64) : list float64 :=
  match l with
  | [] => []
  | x :: l' => x :: cumsum_from x l'
  end.

(** [np.argmax] on a boolean array: the index of the first occurrence of
    the largest value, scanning from the left and keeping the best seen
    so far ([False < True]). *)
Fixpoint argmax_scan (best : bool) (besti i : nat) (l : list bool) : nat :=
  match l with
  | [] => besti
  | b :: l' =>
      if negb best && b then argmax_scan b i (S i) l'
      else argmax_scan best besti (S i) l'
  end.

Definition argmax (l : list bool) : result nat :=
  match l with
  | [] => Raise (ValueError "attempt to get argmax of an empty sequence")
  | b :: l' => Ok (argmax_scan b 0 1 l')
  end.

(** [np.delete(a, i, axis=0)]. *)
Definition delete {A} (a : list A) (i : nat) : result (list A) :=
  if i <? List.length a then Ok (firstn i a ++ skipn (S i) a)
  else Raise (IndexError "index is out of bounds for axis 0").

End np.

Import np.

(** ** Vectors of rationals *)

(** The dot product of two rational vectors. *)
Fixpoint dotQ (x b : list Qc) : Qc :=
  match x, b with
  | xj :: x', bj :: b' => (xj * bj + dotQ x' b')%Qc
  | _, _ => 0%Qc
  end.

(** ** statsmodels: least squares with an L2 penalty

    statsmodels is not part of the sources; the file calls
    [sm.OLS(endog, exog).fit_regularized(alpha=penalty, L1_wt=0)] and
    [results.predict(row)].  The matrix [exog] is a list of rows and its
    number of columns is the length of the first row ([exog.shape[1]]). *)

Module sm.

Abbreviation row := (list Qc).
Abbreviation matrix := (list (list Qc)).

Definition ncols (X : matrix) : nat := List.length (hd [] X).

Fixpoint Qcsum (l : list Qc) : Qc :=
  match l with
  | [] => 0%Qc
  | x :: l' => (x + Qcsum l')%Qc
  end.

(** Entry [(a, b)] of [X'X]. *)
Definition gram (X : matrix) (a b : nat) : Qc :=
  Qcsum (map (fun r => (nth a r 0 * nth b r 0)%Qc) X).

(** Entry [a] of [X'y]. *)
Definition xty (X : matrix) (y : list Qc) (a : nat) : Qc :=
  Qcsum (map (fun ry => (nth a (fst ry) 0 * snd ry)%Qc) (combine X y)).

Definition Qc_of_nat (n : nat) : Qc := Q2Qc (inject_Z (Z.of_nat n)).

(** Row [a] of the augmented system [(X'X + c*I | X'y)]. *)
Definition normal_row (X : matrix) (y : list Qc) (c : Qc) (a : nat) : row :=
  map (fun b => if a =? b then (gram X a b + c)%Qc else gram X a b)
      (seq 0 (ncols X))
  ++ [xty X y a].

Definition normal_equations (X : matrix) (y : list Qc) (c : Qc) : matrix :=
  map (normal_row X y c) (seq 0 (ncols X)).

Definition scale (c : Qc) (r : row) : row := map (Qcmult c) r.

(** [r - c * p], entry by entry. *)
Fixpoint axpy (c : Qc) (p r : row) : row :=
  match p, r with
  | pj :: p', rj :: r' => (rj - c * pj)%Qc :: axpy c p' r'
  | _, _ => []
  end.

(** The first row with a non-zero entry in column [col], and the others. *)
Fixpoint find_pivot (col : nat) (rows : matrix) : option (row * matrix) :=
  match rows with
  | [] => None
  | r :: rs =>
      if Qceqb (nth col r 0%Qc) 0%Qc then
        match find_pivot col rs with
        | Some (p, rest) => Some (p, r :: rest)
        | None => None
        end
      else Some (r, rs)
  end.

(** Gauss-Jordan elimination of [k] columns from column [col] on: [done]
    holds the rows whose pivot is already fixed, in pivot order. *)
Fixpoint eliminate (k col : nat) (done todo : matrix) : option matrix :=
  match k with
  | O => Some done
  | S k' =>
      match find_pivot col todo with
      | None => None
      | Some (p, rest) =>
          let p' := scale (/ nth col p 0)%Qc p in
          let clear r := axpy (nth col r 0%Qc) p' r in
          eliminate k' (S col) (map clear done ++ [p']) (map clear rest)
      end
  end.

(** The solution of an augmented [k x (k+1)] system, [None] when it is
    singular. *)
Definition solve (k : nat) (aug : matrix) : option (list Qc) :=
  match eliminate k 0 [] aug with
  | Some done => Some (map (fun r => nth k r 0%Qc) done)
  | None => None
  end.

Record OLS_model : Type := mkOLS { endog : list Qc; exog : matrix }.

(** Modelled from the spec: the constructor [sm.OLS(endog, exog)] is
    missing from the sources.  The specification (4.5, 4.6) fits [N]
    prices on [N] rows and cannot fit on an empty training set; so does
    statsmodels, which refuses arrays of different lengths and an empty
    [exog] (the column maxima it takes to look for a constant have no
    value). *)
Definition OLS (endog : list Qc) (exog : matrix) : result OLS_model :=
  if negb (List.length endog =? List.length exog) then
    Raise (ValueError "endog and exog matrices are different sizes")
  else match exog with
       | [] => Raise (ValueError "zero-size array to reduction operation maximum which has no identity")
       | _ => Ok (mkOLS endog exog)
       end.

Definition nobs (m : OLS_model) : nat := List.length (exog m).

Record RegularizedResults : Type := mkResults { params : list float64 }.

Definition params_of (k : nat) (sol : option (list Qc)) : list float64 :=
  match sol with
  | Some b => map Fin b
  | None => repeat NaN k
  end.


(** [A v]: the product of a matrix, a list of rows, with a vector. *)
Definition matvec (A : matrix) (v : list Qc) : list Qc :=
  map (fun r => dotQ r v) A.

(** [X'X] *)
Definition gram_matrix (X : matrix) : matrix :=
  map (fun a => map (gram X a) (seq 0 (ncols X))) (seq 0 (ncols X)).

(** [X'y] *)
Definition moments (X : matrix) (y : list Qc) : list Qc :=
  map (xty X y) (seq 0 (ncols X)).

(** [A A] for a square matrix [A]. *)
Definition square (A : matrix) : matrix :=
  map (fun r => map (fun j => dotQ r (map (fun r' => nth j r' 0%Qc) A))
                    (seq 0 (List.length A))) A.

(** The system [(A | c)]. *)
Definition augment (A : matrix) (c : list Qc) : matrix :=
  map (fun rc => fst rc ++ [snd rc]) (combine A c).

(** Gauss-Jordan elimination of a system that may be singular: a column
    without pivot is passed over.  [done] holds the pivot rows, each with
    the column of its pivot. *)
Fixpoint reduce (n col : nat) (done : list (nat * row)) (todo : matrix)
    : list (nat * row) :=
  match n with
  | O => done
  | S n' =>
      match find_pivot col todo with
      | None => reduce n' (S col) done todo
      | Some (p, rest) =>
          let p' := scale (/ nth col p 0)%Qc p in
          let clear r := axpy (nth col r 0%Qc) p' r in
          reduce n' (S col)
                 (map (fun d => (fst d, clear (snd d))) done ++ [(col, p')])
                 (map clear rest)
      end
  end.

(** The solution of a reduced system of [k] unknowns in which the
    unknowns without pivot are zero. *)
Definition particular (k : nat) (done : list (nat * row)) : list Qc :=
  map (fun j => match find (fun d => fst d =? j) done with
                | Some d => nth k (snd d) 0%Qc
                | None => 0%Qc
                end) (seq 0 k).

(** The least-squares solution of smallest norm, [pinv(X) @ y]: with
    [A = X'X] it is [A w] for any [w] with [A A w = X'y]. *)
Definition lstsq (X : matrix) (y : list Qc) : list Qc :=
  let A := gram_matrix X in
  let k := ncols X in
  matvec A (particular k (reduce k 0 [] (augment (square A) (moments X y)))).

(** The rank of [X]: the pivots that the elimination of [X'X] finds. *)
Definition rank (X : matrix) : nat :=
  List.length (reduce (ncols X) 0 [] (gram_matrix X)).

(** Modelled from the spec: statsmodels' [fit_regularized] is missing from
    the sources.  The specification (4.5) has ordinary least squares with
    an L2 (ridge-style) penalty and no implicit intercept.  With
    [L1_wt=0], the only value the file passes, statsmodels minimises
    [0.5*RSS/nobs + 0.5*alpha*|b|^2].  It computes the minimiser from the
    reduced singular value decomposition of [exog], dividing by
    [s^2 + alpha*nobs] for every singular value [s]: the result solves the
    normal equations [(X'X + alpha*nobs*I) b = X'y], and where a divisor
    is zero the parameters are [NaN].  The model solves the normal
    equations exactly, with [NaN] parameters where they are singular.
    With fewer rows than columns and no penalty the normal equations are
    always singular, while the decomposition has only as many singular
    values as there are rows: when none of them is zero ([exog] has full
    row rank) the parameters are the least-squares solution of smallest
    norm.  (In binary64 a singular value that should be zero is often a
    rounding residue instead, and the parameters statsmodels returns are
    then finite and arbitrary: the model does not follow it there.) *)
Definition fit_regularized (m : OLS_model) (alpha : Qc) : RegularizedResults :=
  let X := exog m in
  let c := (alpha * Qc_of_nat (nobs m))%Qc in
  if Qceqb c 0%Qc && (nobs m <? ncols X) then
    mkResults (if rank X =? nobs m then map Fin (lstsq X (endog m))
               else repeat NaN (ncols X))
  else
    mkResults (params_of (ncols X) (solve (ncols X) (normal_equations X (endog m) c))).

(** Modelled from the spec: unregularized ordinary least squares
    ([OLS.fit], which the file does not call), the estimator the
    specification (4.5) says a penalty of 0 reduces to.  statsmodels
    computes it with the pseudo-inverse, [pinv(exog) @ endog]: the
    parameters are numbers for every design, the least-squares solution
    of smallest norm. *)
Definition fit (m : OLS_model) : RegularizedResults :=
  mkResults (map Fin (lstsq (exog m) (endog m))).

Fixpoint dot (x : row) (b : list float64) : float64 :=
  match x, b with
  | xj :: x', bj :: b' => add (mul (Fin xj) bj) (dot x' b')
  | _, _ => zero
  end.

(** Modelled from the spec: [results.predict(x)] is missing from the
    sources.  For one row [x] (4.5: a feature row of [k] entries) it is
    an array of one prediction, the product of the row with the
    parameters; a row of another length cannot be multiplied. *)
Definition predict (res : RegularizedResults) (x : row) : result (list float64) :=
  if List.length x =? List.length (params res) then Ok (dot x (params res) :: nil)
  else Raise (ValueError "shapes not aligned").

End sm.

(** ** cross_val *)

(** [np.corrcoef(x, y)[0][1]].  Pearson's coefficient needs a square root;
    the model keeps the call with its two arguments as the value. *)
Inductive correlation : Type :=
| corrcoef (x y : list float64).

(** [a[i] = v] on an array. *)
Definition setitem {A} (a : list A) (i : nat) (v : A) : result (list A) :=
  if i <? List.length a then Ok (firstn i a ++ v :: skipn (S i) a)
  else Raise (IndexError "index is out of bounds").

(** [100 * abs(prediction - target_price) / target_price] *)
Definition percentage_error (prediction : float64) (target_price : Qc) : float64 :=
  div (mul (of_Z 100) (abs (sub prediction (Fin target_price)))) (Fin target_price).

(** Python's [sum(l)], from the integer 0. *)
Definition py_sum (l : list float64) : float64 := fold_left add l zero.

(** [sum(l) / len(l)]: with no element it is the integer division [0 / 0]. *)
Definition py_mean (l : list float64) : result float64 :=
  match l with
  | [] => Raise (ZeroDivisionError "division by zero")
  | _ => Ok (div (py_sum l) (of_nat (List.length l)))
  end.

(** The body of the loop, for the row [target_features] at index [i]. *)
Definition cross_val_step (prices : list Qc) (features : sm.matrix) (penalty : Qc)
    (i : nat) (target_features : sm.row)
    (acc : list float64 * list float64) : result (list float64 * list float64) :=
  let '(predictions, percentage_errors) := acc in
  (target_price <- getitem prices i ;;
   train_features <- np.delete features i ;;
   train_prices <- np.delete prices i ;;
   m_linear <- sm.OLS train_prices train_features ;;
   let results := sm.fit_regularized m_linear penalty in
   predicted <- sm.predict results target_features ;;
   prediction <- getitem predicted 0 ;;
   predictions' <- setitem predictions i prediction ;;
   Ok (predictions', percentage_errors ++ [percentage_error prediction target_price]))%py.

(** [for i, target_features in enumerate(features)], from index [i]. *)
Fixpoint cross_val_loop (prices : list Qc) (features : sm.matrix) (penalty : Qc)
    (i : nat) (todo : sm.matrix)
    (acc : list float64 * list float64) : result (list float64 * list float64) :=
  match todo with
  | [] => Ok acc
  | target_features :: todo' =>
      (acc' <- cross_val_step prices features penalty i target_features acc ;;
       cross_val_loop prices features penalty (S i) todo' acc')%py
  end.

Definition cross_val (prices : list Qc) (features : sm.matrix)
    (ridge : bool) (penalty : Qc) : result (float64 * correlation) :=
  (let predictions := repeat zero (List.length prices) in
   let percentage_errors := [] in
   acc <- cross_val_loop prices features penalty 0 features
            (predictions, percentage_errors) ;;
   let '(predictions, percentage_errors) := acc in
   let corr := corrcoef (map Fin prices) predictions in
   avg_pct_error <- py_mean percentage_errors ;;
   Ok (avg_pct_error, corr))%py.

(** ** cross_val in binary64

    The loop of [cross_val] once more, on the floats of the machine
    (Rocq's primitive floats are IEEE 754 binary64 numbers, rounded to
    nearest, ties to even).  statsmodels is a parameter of the loop. *)

Module binary64.

Import SpecFloat.

Abbreviation float64 := PrimFloat.float.

(** [float(z)] for an integer [z] below [2 ** 63] in absolute value. *)
Definition of_Z (z : Z) : float64 :=
  match z with
  | Zneg p => PrimFloat.opp (PrimFloat.of_uint63 (Uint63.of_Z (Zpos p)))
  | _ => PrimFloat.of_uint63 (Uint63.of_Z z)
  end.

Definition of_nat (n : nat) : float64 := of_Z (Z.of_nat n).

Definition zero : float64 := of_Z 0.

(** The number a float stands for. *)
Definition exact (x : float64) : np.float64 :=
  match FloatOps.Prim2SF x with
  | S754_zero _ => Fin 0%Qc
  | S754_infinity false => PInf
  | S754_infinity true => NInf
  | S754_nan => NaN
  | S754_finite s m e =>
      let q := (inject_Z (Zpos m) * Qpower 2 e)%Q in
      Fin (Q2Qc (if s then Qopp q else q))
  end.

(** The float nearest to [n/d], ties to even, with the sign [s]: the
    quotient is taken with 55 bits at least and rounded as the operations
    of the format are. *)
Definition round_ratio (s : bool) (n d : positive) : float64 :=
  let shift := Z.max 0 (55 + Z.log2 (Zpos d) - Z.log2 (Zpos n)) in
  let N := (Zpos n * 2 ^ shift)%Z in
  let q := (N / Zpos d)%Z in
  let r := (N mod Zpos d)%Z in
  let l := if (r =? 0)%Z then loc_Exact else loc_Inexact (2 * r ?= Zpos d)%Z in
  FloatOps.SF2Prim (binary_round_aux FloatOps.prec FloatOps.emax s q (- shift) l).

Definition round (x : np.float64) : float64 :=
  match x with
  | Fin q =>
      match Qnum (this q) with
      | Z0 => zero
      | Zpos n => round_ratio false n (Qden (this q))
      | Zneg n => round_ratio true n (Qden (this q))
      end
  | PInf => PrimFloat.infinity
  | NInf => PrimFloat.neg_infinity
  | NaN => PrimFloat.nan
  end.


(** statsmodels, as the loop calls it; every call may raise. *)
Record Regression : Type := mkRegression {
  Model : Type;
  Results : Type;
  (** [sm.OLS(endog, exog)] *)
  OLS : list float64 -> list (list float64) -> result Model;
  (** [model.fit_regularized(alpha=alpha, L1_wt=0)] *)
  fit_regularized : Model -> float64 -> result Results;
  (** [results.predict(row)] *)
  predict : Results -> list float64 -> result (list float64)
}.

Inductive correlation : Type :=
| corrcoef (x y : list float64).

(** [100 * abs(prediction - target_price) / target_price] *)
Definition percentage_error (prediction target_price : float64) : float64 :=
  PrimFloat.div
    (PrimFloat.mul (of_Z 100) (PrimFloat.abs (PrimFloat.sub prediction target_price)))
    target_price.

(** Python's [sum(l)], from the integer 0, added from left to right. *)
Definition py_sum (l : list float64) : float64 := fold_left PrimFloat.add l zero.

Definition py_mean (l : list float64) : result float64 :=
  match l with
  | [] => Raise (ZeroDivisionError "division by zero")
  | _ => Ok (PrimFloat.div (py_sum l) (of_nat (List.length l)))
  end.

Definition cross_val_step (lib : Regression) (prices : list float64)
    (features : list (list float64)) (penalty : float64)
    (i : nat) (target_features : list float64)
    (acc : list float64 * list float64) : result (list float64 * list float64) :=
  let '(predictions, percentage_errors) := acc in
  (target_price <- getitem prices i ;;
   train_features <- np.delete features i ;;
   train_prices <- np.delete prices i ;;
   m_linear <- OLS lib train_prices train_features ;;
   results <- fit_regularized lib m_linear penalty ;;
   predicted <- predict lib results target_features ;;
   prediction <- getitem predicted 0 ;;
   predictions' <- setitem predictions i prediction ;;
   Ok (predictions', percentage_errors ++ [percentage_error prediction target_price]))%py.

Fixpoint cross_val_loop (lib : Regression) (prices : list float64)
    (features : list (list float64)) (penalty : float64)
    (i : nat) (todo : list (list float64))
    (acc : list float64 * list float64) : result (list float64 * list float64) :=
  match todo with
  | [] => Ok acc
  | target_features :: todo' =>
      (acc' <- cross_val_step lib prices features penalty i target_features acc ;;
       cross_val_loop lib prices features penalty (S i) todo' acc')%py
  end.

Definition cross_val (lib : Regression) (prices : list float64)
    (features : list (list float64)) (ridge : bool) (penalty : float64)
    : result (float64 * correlation) :=
  (let predictions := repeat zero (List.length prices) in
   let percentage_errors := [] in
   acc <- cross_val_loop lib prices features penalty 0 features
            (predictions, percentage_errors) ;;
   let '(predictions, percentage_errors) := acc in
   let corr := corrcoef prices predictions in
   avg_pct_error <- py_mean percentage_errors ;;
   Ok (avg_pct_error, corr))%py.

(** Lines 55 to 59 of the loop: the prediction for the row
    [target_features] at index [i], from the other samples. *)
Definition predict_without (lib : Regression) (prices : list float64)
    (features : list (list float64)) (penalty : float64)
    (i : nat) (target_features : list float64) : result float64 :=
  (train_features <- np.delete features i ;;
   train_prices <- np.delete prices i ;;
   m_linear <- OLS lib train_prices train_features ;;
   results <- fit_regularized lib m_linear penalty ;;
   predicted <- predict lib results target_features ;;
   getitem predicted 0)%py.

(** A number of the format that is neither an infinity nor a [NaN]. *)
Definition SFisfinite (x : spec_float) : bool :=
  match x with
  | S754_zero _ | S754_finite _ _ _ => true
  | S754_infinity _ | S754_nan => false
  end.

(** [np.isfinite(x)] *)
Definition isfinite (x : float64) : bool := SFisfinite (FloatOps.Prim2SF x).

(** The numbers a list of floats stands for, when all are finite. *)
Fixpoint finite_values (l : list float64) : option (list Qc) :=
  match l with
  | [] => Some []
  | x :: l' =>
      match exact x, finite_values l' with
      | Fin q, Some qs => Some (q :: qs)
      | _, _ => None
      end
  end.

Fixpoint finite_rows (X : list (list float64)) : option sm.matrix :=
  match X with
  | [] => Some []
  | r :: X' =>
      match finite_values r, finite_rows X' with
      | Some q, Some Q => Some (q :: Q)
      | _, _ => None
      end
  end.

Definition MissingDataError := Exception "MissingDataError".

(** Modelled from the spec: statsmodels is missing from the sources.  The
    estimator of the specification (4.5), least squares with an L2 penalty
    and no intercept, computed as well as binary64 allows: the ridge fit
    [sm.fit_regularized] of the numbers that the floats stand for, every
    prediction rounded once to the nearest float.  The model is for
    arrays of numbers: it refuses an array that holds an infinity or a
    [NaN] (statsmodels refuses them in [exog]). *)
Definition rounded_ridge : Regression :=
  {| Model := sm.OLS_model;
     Results := sm.RegularizedResults;
     OLS := fun endog exog =>
       match finite_values endog, finite_rows exog with
       | Some y, Some X => sm.OLS y X
       | _, _ => Raise (MissingDataError "exog contains inf or nans")
       end;
     fit_regularized := fun m alpha =>
       match exact alpha with
       | Fin a => Ok (sm.fit_regularized m a)
       | _ => Raise (MissingDataError "alpha is inf or nan")
       end;
     predict := fun res x =>
       match finite_values x with
       | Some r => (p <- sm.predict res r ;; Ok (map round p))%py
       | None => Raise (MissingDataError "exog contains inf or nans")
       end |}.

(** The first component of what [cross_val] returns. *)
Definition average_error (r : result (float64 * correlation)) : result float64 :=
  (p <- r ;; Ok (fst p))%py.

(** The sign of a binary64 number, as its specification has it, is
    clear, or the number is a [NaN]. *)
Definition SFsign_clear (x : spec_float) : Prop :=
  match x with
  | S754_nan | S754_zero false | S754_infinity false | S754_finite false _ _ => True
  | _ => False
  end.

(** The sign bit of [x] is clear, or [x] is a [NaN]. *)
Definition sign_clear (x : float64) : Prop := SFsign_clear (FloatOps.Prim2SF x).


End binary64.

(** ** pandas: the frames of the feature code *)

Module pd.

(** A cell of a frame. *)
Inductive cell : Type :=
| Str (s : string)
| Int (z : Z)
| Float (x : float64)
| Date (ordinal : Z).

Definition cell_eqb (a b : cell) : bool :=
  match a, b with
  | Str s, Str t => String.eqb s t
  | Int x, Int y => Z.eqb x y
  | Date x, Date y => Z.eqb x y
  | Float (Fin x), Float (Fin y) => Qceqb x y
  | Float PInf, Float PInf | Float NInf, Float NInf => true
  | _, _ => false
  end.

(** A frame: its columns in order, each a label and its cells; the row
    labels are the positions (a [RangeIndex]). *)
Definition DataFrame := list (string * list cell).

Definition columns (df : DataFrame) : list string := map fst df.

(** [df[labels]]: for every label, the columns that carry it; a label
    that no column carries is a [KeyError]. *)
Fixpoint getitem_columns (df : DataFrame) (labels : list string) : result DataFrame :=
  match labels with
  | [] => Ok []
  | l :: labels' =>
      match filter (fun c => String.eqb (fst c) l) df with
      | [] => Raise (KeyError l)
      | cols => (rest <- getitem_columns df labels' ;; Ok (cols ++ rest))%py
      end
  end.

(** A mapping, as Python writes it: [{k1: v1, k2: v2}]. *)
Definition dict (K V : Type) := list (K * V).

Fixpoint lookup {V} (d : dict string V) (k : string) : option V :=
  match d with
  | [] => None
  | (k', v) :: d' => if String.eqb k' k then Some v else lookup d' k
  end.

Definition replace_cell (mapping : dict cell cell) (v : cell) : cell :=
  match find (fun kv => cell_eqb (fst kv) v) mapping with
  | Some (_, v') => v'
  | None => v
  end.

(** [df.replace({column: {old: new}})]: a new frame. *)
Definition replace (df : DataFrame) (to_replace : dict string (dict cell cell)) : DataFrame :=
  map (fun c => match lookup to_replace (fst c) with
                | Some mapping => (fst c, map (replace_cell mapping) (snd c))
                | None => c
                end) df.

(** [df.rename(columns={old: new})]: a new frame; [df] itself is not
    changed. *)
Definition rename (df : DataFrame) (mapper : dict string string) : DataFrame :=
  map (fun c => match lookup mapper (fst c) with
                | Some l => (l, snd c)
                | None => c
                end) df.

(** [pd.concat([a, b], axis=1)] of frames with the same row labels. *)
Definition concat_columns (a b : DataFrame) : DataFrame := a ++ b.

(** [df.drop(columns=labels)]. *)
Definition drop (df : DataFrame) (labels : list string) : DataFrame :=
  filter (fun c => negb (existsb (String.eqb (fst c)) labels)) df.

(** The frame [df.corr()] returns: a square table of floats with the
    numeric columns of [df] as row and as column labels. *)
Record Corr : Type := mkCorr {
  index : list string;
  corr_columns : list (string * list float64)
}.

Definition isna (x : float64) : bool :=
  match x with NaN => true | _ => false end.

(** The positions of a list that a mask keeps. *)
Fixpoint compress {A} (mask : list bool) (l : list A) : list A :=
  match mask, l with
  | true :: m, x :: l' => x :: compress m l'
  | false :: m, _ :: l' => compress m l'
  | _, _ => []
  end.

(** Row [i] of a table of columns. *)
Definition corr_row (c : Corr) (i : nat) : list float64 :=
  map (fun col => nth i (snd col) NaN) (corr_columns c).

(** [corr.dropna(how='all')]: the rows that are [NaN] everywhere go. *)
Definition dropna_rows (c : Corr) : Corr :=
  let keep := map (fun i => negb (forallb isna (corr_row c i)))
                  (seq 0 (List.length (index c))) in
  mkCorr (compress keep (index c))
         (map (fun col => (fst col, compress keep (snd col))) (corr_columns c)).

(** [corr.dropna(axis=1, how='all')]: the same for the columns. *)
Definition dropna_columns (c : Corr) : Corr :=
  mkCorr (index c)
         (filter (fun col => negb (forallb isna (snd col))) (corr_columns c)).

(** [a.difference(b).tolist()] on column labels: the labels of [a] that
    are not in [b], each once. *)
Definition difference (a b : list string) : list string :=
  nodup string_dec (filter (fun l => negb (existsb (String.eqb l) b)) a).

End pd.

(** ** The sample table and the collaborators *)

(** A row of the table [get_training_samples] returns.  The date is its
    ordinal (a day count), so [date +/- relativedelta(days=n)] is [+/- n]. *)
Module Sample.
Record t : Type := make {
  latitude : Qc;
  longitude : Qc;
  date_of_transfer : Z;
  property_type : string;
  price : Qc;
  new_build_flag : string;
  tenure_type : string
}.
End Sample.

(** The table as a frame, for the code that works on columns.  The column
    [index] that [reset_index] adds is left out: no code reads it. *)
Definition as_frame (samples : list Sample.t) : pd.DataFrame :=
  [ ("latitude", map (fun s => pd.Float (Fin (Sample.latitude s))) samples);
    ("longitude", map (fun s => pd.Float (Fin (Sample.longitude s))) samples);
    ("date_of_transfer", map (fun s => pd.Date (Sample.date_of_transfer s)) samples);
    ("property_type", map (fun s => pd.Str (Sample.property_type s)) samples);
    ("price", map (fun s => pd.Float (Fin (Sample.price s))) samples);
    ("new_build_flag", map (fun s => pd.Str (Sample.new_build_flag s)) samples);
    ("tenure_type", map (fun s => pd.Str (Sample.tenure_type s)) samples) ]%string.

(** What [access.greater_equal_condition(a, b)] is given: a column name or
    a literal on each side. *)
Inductive sql_term : Type :=
| Column (name : string)
| DateLiteral (ordinal : Z)
| Number (q : Qc).

Inductive condition : Type :=
| greater_equal_condition (a b : sql_term).

(** sklearn's fitted [PCA]: the two members the file reads. *)
Record PCA : Type := mkPCA {
  explained_variance_ratio_ : list float64;
  transform : pd.DataFrame -> result sm.matrix
}.

(** The collaborators of the file: [fynesse.access], [fynesse.assess],
    and the numerical routines of pandas and sklearn whose results the
    code only passes on.  Each may raise. *)
Record Services : Type := mkServices {
  Rows : Type;
  Pois : Type;
  PoiCounts : Type;
  KeysDict : Type;
  KEYS_DICT : KeysDict;
  get_credentials : string -> result (pd.dict string string);
  (** [access.create_connection(user, password, host, port, database)] *)
  connect : string -> string -> string -> string -> string -> result unit;
  (** [access.query_table(conn, table, conditions, limit)] *)
  query_table : nat -> string -> list condition -> nat -> result Rows;
  price_coordinates_data_to_df : Rows -> result (list Sample.t);
  (** [assess.get_pois(latitude, longitude, keys, box_height, box_width)] *)
  get_pois : Qc -> Qc -> KeysDict -> Qc -> Qc -> result Pois;
  count_pois_by_features :
    Pois -> KeysDict -> list (string * string) -> result PoiCounts;
  (** [pd.DataFrame(pois_by_features)] *)
  DataFrame_of : list PoiCounts -> result pd.DataFrame;
  (** [df.corr()] *)
  corr : pd.DataFrame -> pd.Corr;
  (** [PCA(n_components=n).fit(corr)] *)
  PCA_fit : nat -> pd.Corr -> result PCA
}.

Definition TAGS : list (string * string) := [("amenity", "school")]%string.

(** ** property_feature_map *)

Definition replacements : pd.dict string (pd.dict pd.cell pd.cell) :=
  [ ("new_build_flag", [ (pd.Str "N", pd.Int 0); (pd.Str "Y", pd.Int 1) ]);
    ("tenure_type", [ (pd.Str "L", pd.Int 0); (pd.Str "F", pd.Int 1) ]) ]%string.

Definition property_feature_map (training_rows : pd.DataFrame) : result pd.DataFrame :=
  (res <- pd.getitem_columns training_rows ["new_build_flag"; "tenure_type"]%string ;;
   let res := pd.replace res replacements in
   (* the frame [rename] returns is not bound to a name *)
   let _ := pd.rename res [("tenure_type", "freehold_flag")]%string in
   Ok res)%py.

(** ** convert_property_to_feature_vec *)

(** [np.concatenate((property_feature[0], [property_feature[1],
    property_feature[2]]))]; no code of the file calls it. *)
Definition convert_property_to_feature_vec {A} (property_feature : list A * A * A) : list A :=
  let '(vec, a, b) := property_feature in vec ++ [a; b].

(** ** convert_to_principle_components *)

(** [np.argmax(explained_variance > threshold) + 1] on
    [explained_variance = np.cumsum(ratios)]. *)
Definition component_cutoff (ratios : list float64) (threshold : float64) : result nat :=
  (let explained_variance := cumsum ratios in
   first <- argmax (map (fun v => gt v threshold) explained_variance) ;;
   Ok (first + 1))%py.

Definition default_threshold : float64 := Fin (Q2Qc (95 # 100)%Q).

Definition convert_to_principle_components (S : Services)
    (pois_by_features : list (PoiCounts S))
    (encoded_property_features : pd.DataFrame)
    (threshold : float64) : result sm.matrix :=
  (df <- DataFrame_of S pois_by_features ;;
   let df := pd.concat_columns df encoded_property_features in
   let corr := corr S df in
   let corr := pd.dropna_rows corr in
   let corr := pd.dropna_columns corr in
   let dropped_features :=
     pd.difference (pd.columns df) (map fst (pd.corr_columns corr)) in
   let df := pd.drop df dropped_features in
   pca <- PCA_fit S (List.length (pd.index corr)) corr ;;
   cutoff <- component_cutoff (explained_variance_ratio_ pca) threshold ;;
   projected <- transform pca df ;;
   Ok (map (firstn cutoff) projected))%py.

(** ** Effects: standard output and database connections *)

(** What [print] writes.  Numbers are kept as values, not rendered. *)
Inductive printed : Type :=
| Text (s : string)
| NumberOfSamples (n : nat)
| Summary (prediction : float64) (target_price : Qc)
          (percentage_error avg_percent_error : float64) (corr : correlation).

Record World : Type := mkWorld {
  stdout : list printed;
  (** the handles of the connections that are open *)
  open_connections : list nat;
  (** how many connections were created so far *)
  created : nat
}.

Definition M (A : Type) : Type := World -> result A * World.

Definition ret {A} (a : A) : M A := fun w => (Ok a, w).

Definition raise {A} (e : exception) : M A := fun w => (Raise e, w).

Definition bindM {A B} (m : M A) (k : A -> M B) : M B :=
  fun w => match m w with
           | (Ok a, w') => k a w'
           | (Raise e, w') => (Raise e, w')
           end.

Definition lift {A} (r : result A) : M A := fun w => (r, w).

(** [try: body / except Exception as e: handler e] *)
Definition try_except {A} (body : M A) (handler : exception -> M A) : M A :=
  fun w => match body w with
           | (Ok a, w') => (Ok a, w')
           | (Raise e, w') => handler e w'
           end.

Definition print (p : printed) : M unit :=
  fun w => (Ok tt, mkWorld (stdout w ++ [p]) (open_connections w) (created w)).

Definition when (b : bool) (m : M unit) : M unit :=
  if b then m else ret tt.

Declare Scope M_scope.
Delimit Scope M_scope with M.
Notation "x <- m ;; k" := (bindM m (fun x => k))
  (at level 61, m at next level, right associativity) : M_scope.
Notation "m ;;; k" := (bindM m (fun _ => k))
  (at level 61, right associativity) : M_scope.

(** [access.create_connection(...)]: a new handle, open from now on. *)
Definition create_connection (S : Services)
    (user password host port database : string) : M nat :=
  fun w => match connect S user password host port database with
           | Ok _ => (Ok (created w),
                      mkWorld (stdout w) (created w :: open_connections w)
                              (Datatypes.S (created w)))
           | Raise e => (Raise e, w)
           end.

(** [conn.close()] *)
Definition close (conn : nat) : M unit :=
  fun w => (Ok tt, mkWorld (stdout w)
                           (List.remove Nat.eq_dec conn (open_connections w))
                           (created w)).

(** [d[key]] on a dict. *)
Definition dict_getitem {V} (d : pd.dict string V) (key : string) : result V :=
  match pd.lookup d key with
  | Some v => Ok v
  | None => Raise (KeyError key)
  end.

(** ** get_training_samples *)

Definition get_training_samples (S : Services) (latitude longitude : Qc)
    (date : Z) (property_type : string) (date_range : Z) (area_range : Qc)
    (limit : nat) : M (list Sample.t) :=
  (credentials <- lift (get_credentials S "credentials.yaml") ;;
   user <- lift (dict_getitem credentials "username") ;;
   password <- lift (dict_getitem credentials "password") ;;
   host <- lift (dict_getitem credentials "url") ;;
   port <- lift (dict_getitem credentials "port") ;;
   database <- lift (dict_getitem credentials "name") ;;
   conn <- create_connection S user password host port database ;;
   let conditions :=
     [ greater_equal_condition (Column "date_of_transfer") (DateLiteral (date - date_range));
       greater_equal_condition (DateLiteral (date + date_range)) (Column "date_of_transfer");
       greater_equal_condition (Column "latitude") (Number (latitude - area_range)%Qc);
       greater_equal_condition (Number (latitude + area_range)%Qc) (Column "latitude");
       greater_equal_condition (Column "longitude") (Number (longitude - area_range)%Qc);
       greater_equal_condition (Number (longitude + area_range)%Qc) (Column "longitude") ]%Z in
   rows <- lift (query_table S conn "prices_coordinates_data" conditions limit) ;;
   samples <- lift (price_coordinates_data_to_df S rows) ;;
   close conn ;;;
   let samples :=
     filter (fun s => String.eqb (Sample.property_type s) property_type) samples in
   (* reset_index: the rows are labelled by their positions again *)
   ret samples)%M%string.

(** ** predict_price *)

Definition Qcleb (a b : Qc) : bool :=
  match (a ?= b)%Qc with Gt => false | _ => true end.

(** [series.between(left, right)], both ends included. *)
Definition between (x left right : Qc) : bool :=
  Qcleb left x && Qcleb x right.

Definition tolerance : Qc := Q2Qc (1 # 10000000)%Q.

(** The mask of line 21, on one row. *)
Definition is_target (latitude longitude : Qc) (date : Z) (property_type : string)
    (s : Sample.t) : bool :=
  between (Sample.latitude s) (latitude - tolerance)%Qc (latitude + tolerance)%Qc
  && between (Sample.longitude s) (longitude - tolerance)%Qc (longitude + tolerance)%Qc
  && (Sample.date_of_transfer s =? date)%Z
  && String.eqb (Sample.property_type s) property_type.

(** [series.idxmax()]: the label of the first largest value; the labels
    are the positions. *)
Definition idxmax (mask : list bool) : result nat := argmax mask.

Definition target_id_of (samples : list Sample.t) (latitude longitude : Qc)
    (date : Z) (property_type : string) : result nat :=
  idxmax (map (is_target latitude longitude date property_type) samples).

(** An argument that Python's [float()] is applied to. *)
Inductive pyarg : Type :=
| PyNum (q : Qc)
| PyNone.

Definition float (v : pyarg) : result Qc :=
  match v with
  | PyNum q => Ok q
  | PyNone => Raise (TypeError "float() argument must be a string or a real number, not 'NoneType'")
  end.

(** The loop of lines 26-28. *)
Fixpoint extract_pois (S : Services) (samples : list Sample.t) : result (list (PoiCounts S)) :=
  match samples with
  | [] => Ok []
  | s :: samples' =>
      (pois <- get_pois S (Sample.latitude s) (Sample.longitude s) (KEYS_DICT S)
                 (Q2Qc (1 # 100)%Q) (Q2Qc (1 # 100)%Q) ;;
       counts <- count_pois_by_features S pois (KEYS_DICT S) TAGS ;;
       rest <- extract_pois S samples' ;;
       Ok (counts :: rest))%py
  end.

Definition prediction_tuple : Type := float64 * Qc * float64 * correlation.

(** The statements inside [try]. *)
Definition predict_price_body (S : Services) (latitude longitude : Qc) (date : Z)
    (property_type : string) (date_range : Z) (area_range : Qc)
    (ridge : bool) (penalty : Qc) (verbose : bool) : M (option prediction_tuple) :=
  (when verbose (print (Text "Collecting training samples")) ;;;
   samples <- get_training_samples S latitude longitude date property_type
                date_range area_range 500 ;;
   target_id <- lift (target_id_of samples latitude longitude date property_type) ;;
   when verbose (print (NumberOfSamples (List.length samples)) ;;;
                 print (Text "Extracting pois")) ;;;
   pois_by_features <- lift (extract_pois S samples) ;;
   encoded_property_features <- lift (property_feature_map (as_frame samples)) ;;
   features <- lift (convert_to_principle_components S pois_by_features
                       encoded_property_features default_threshold) ;;
   target_features <- lift (getitem features target_id) ;;
   features <- lift (np.delete features target_id) ;;
   let prices := map Sample.price samples in
   target_price <- lift (getitem prices target_id) ;;
   prices <- lift (np.delete prices target_id) ;;
   cv <- lift (cross_val prices features ridge penalty) ;;
   let '(avg_percent_error, corr) := cv in
   m_linear <- lift (sm.OLS prices features) ;;
   let results := sm.fit_regularized m_linear penalty in
   predicted <- lift (sm.predict results target_features) ;;
   prediction <- lift (getitem predicted 0) ;;
   let percentage_error := percentage_error prediction target_price in
   when verbose (print (Summary prediction target_price percentage_error
                                avg_percent_error corr)) ;;;
   ret (Some (prediction, target_price, avg_percent_error, corr)))%M%string.

Definition diagnostic (e : exception) : printed :=
  Text ("The following error occured whilst trying to make a prediction: " ++ Py.str e).

(** The function returns [None] when it falls off the end of the handler. *)
Definition predict_price (S : Services) (latitude longitude : pyarg) (date : Z)
    (property_type : string) (date_range : Z) (area_range : Qc)
    (ridge : bool) (penalty : Qc) (verbose : bool) : M (option prediction_tuple) :=
  (latitude <- lift (float latitude) ;;
   longitude <- lift (float longitude) ;;
   try_except
     (predict_price_body S latitude longitude date property_type
        date_range area_range ridge penalty verbose)
     (fun e => print (diagnostic e) ;;; ret None))%M.

(** ** Auxiliary definitions for the statements *)

(** The position of the first [true]. *)
Fixpoint first_true (mask : list bool) : option nat :=
  match mask with
  | [] => None
  | true :: _ => Some 0
  | false :: mask' => option_map Datatypes.S (first_true mask')
  end.

(** The first component of what [cross_val] returns. *)
Definition average_error (r : result (float64 * correlation)) : result float64 :=
  (p <- r ;; Ok (fst p))%py.

(** The elements of [l] in the order [perm] of their indices. *)
Definition reorder {A} (d : A) (perm : list nat) (l : list A) : list A :=
  map (fun j => nth j l d) perm.

(** The prediction for the row [x] of the model fitted on [others], a list
    of rows with their prices. *)
Definition loo_predict (penalty : Qc) (others : list (sm.row * Qc)) (x : sm.row) : float64 :=
  sm.dot x (sm.params (sm.fit_regularized
                         (sm.mkOLS (map snd others) (map fst others)) penalty)).

(** The leave-one-out predictions of the samples [todo], [before] being
    the samples that precede them. *)
Fixpoint loo_predictions (penalty : Qc) (before todo : list (sm.row * Qc)) : list float64 :=
  match todo with
  | [] => []
  | s :: todo' =>
      loo_predict penalty (before ++ todo') (fst s)
      :: loo_predictions penalty (before ++ [s]) todo'
  end.

Fixpoint loo_errors (penalty : Qc) (before todo : list (sm.row * Qc)) : list float64 :=
  match todo with
  | [] => []
  | s :: todo' =>
      percentage_error (loo_predict penalty (before ++ todo') (fst s)) (snd s)
      :: loo_errors penalty (before ++ [s]) todo'
  end.

(** Decidable equality of floats, to compare computed values. *)
Definition float64_eqb (x y : float64) : bool :=
  match x, y with
  | Fin a, Fin b => Qceqb a b
  | PInf, PInf | NInf, NInf | NaN, NaN => true
  | _, _ => false
  end.

Definition Qc_of (n d : Z) : Qc := Q2Qc (n # Z.to_pos d)%Q.

(** Lines 32-36 of [predict_price]: the target row leaves the features
    and the prices, and [cross_val] runs on what remains. *)
Definition cross_val_without_target (prices : list Qc) (features : sm.matrix)
    (target_id : nat) (ridge : bool) (penalty : Qc) : result (float64 * correlation) :=
  (features <- np.delete features target_id ;;
   prices <- np.delete prices target_id ;;
   cross_val prices features ridge penalty)%py.

Fixpoint float64_list_eqb (l l' : list float64) : bool :=
  match l, l' with
  | [], [] => true
  | x :: l, x' :: l' => float64_eqb x x' && float64_list_eqb l l'
  | _, _ => false
  end.

(** [r] is the float [x]. *)
Definition returns_float (r : result float64) (x : float64) : bool :=
  match r with
  | Ok y => float64_eqb y x
  | Raise _ => false
  end.

(** Wherever the column [old] holds [a], the column [new] holds [b]. *)
Definition maps_to (old new : list pd.cell) (a b : pd.cell) : Prop :=
  forall i, nth_error old i = Some a -> nth_error new i = Some b.

(** ** Least squares: what the estimator is measured against *)

(** How far [b] is from solving the row [r] of an augmented system:
    [r[0]*b[0] + ... + r[k-1]*b[k-1] - r[k]]. *)
Fixpoint residual (r : sm.row) (b : list Qc) : Qc :=
  match b with
  | [] => (- hd 0%Qc r)%Qc
  | bj :: b' =>
      match r with
      | [] => 0%Qc
      | rj :: r' => (rj * bj + residual r' b')%Qc
      end
  end.









(** [r] is the list of floats [l]. *)
Definition returns_floats (r : result (list float64)) (l : list float64) : bool :=
  match r with
  | Ok l' => float64_list_eqb l' l
  | Raise _ => false
  end.


(** ** Concrete inputs for the examples *)

Definition credentials_yaml : pd.dict string string :=
  [ ("username", "analyst"); ("password", "secret"); ("url", "localhost");
    ("port", "3306"); ("name", "property_prices") ]%string.

(** Collaborators over a database that holds [table].  With
    [available = false] every query fails, as on a lost connection.  The
    point-of-interest service finds nothing, the features are
    uncorrelated, and the PCA projects every sample to 1 on a single
    component that explains everything. *)
Definition database_services (table : list Sample.t) (available : bool) : Services :=
  {| Rows := list Sample.t;
     Pois := unit;
     PoiCounts := Qc;
     KeysDict := unit;
     KEYS_DICT := tt;
     get_credentials := fun _ => Ok credentials_yaml;
     connect := fun _ _ _ _ _ => Ok tt;
     query_table := fun _ _ _ limit =>
       if available then Ok (firstn limit table)
       else Raise (Exception "OperationalError"
                             "Lost connection to MySQL server during query");
     price_coordinates_data_to_df := fun rows => Ok rows;
     get_pois := fun _ _ _ _ _ => Ok tt;
     count_pois_by_features := fun _ _ _ => Ok 0%Qc;
     DataFrame_of := fun counts =>
       Ok [("school"%string, map (fun c => pd.Float (Fin c)) counts)];
     corr := fun df =>
       pd.mkCorr (pd.columns df)
                 (map (fun c => (fst c,
                                 map (fun l => if String.eqb l (fst c)
                                               then Fin 1%Qc else zero)
                                     (pd.columns df))) df);
     PCA_fit := fun _ _ =>
       Ok (mkPCA [Fin 1%Qc]
                 (fun df => Ok (map (fun _ => [1%Qc])
                                    (seq 0 (List.length (snd (hd (""%string, []) df)))))))
  |}.

(** The same collaborators with other credentials. *)
Definition with_credentials (S : Services) (credentials : pd.dict string string) : Services :=
  mkServices (KEYS_DICT S) (fun _ => Ok credentials) (connect S) (query_table S)
             (price_coordinates_data_to_df S) (get_pois S)
             (count_pois_by_features S) (DataFrame_of S) (corr S) (PCA_fit S).









Definition empty_world : World := mkWorld [] [] 0.

(** A detached house at (51.5, -0.1), with the day of its sale. *)
Definition house (date : Z) (price : Z) : Sample.t :=
  Sample.make (Qc_of 515 10) (Qc_of (-1) 10) date "D"
              (Q2Qc (inject_Z price)) "N" "F".

Unset Implicit Arguments.

(** ** Lemmas on the numerical model *)

Lemma Qceqb_eq (a b : Qc) : Qceqb a b = true <-> a = b.
Proof.
  unfold Qceqb. rewrite Qceq_alt.
  destruct (a ?= b)%Qc; split; congruence.
Qed.

Lemma Qceqb_refl (a : Qc) : Qceqb a a = true.
Proof. now apply Qceqb_eq. Qed.


Lemma float64_eqb_eq (x y : float64) : float64_eqb x y = true -> x = y.
Proof.
  destruct x, y; simpl; try congruence.
  intros H. apply Qceqb_eq in H. now subst.
Qed.


Lemma add_comm (x y : float64) : add x y = add y x.
Proof.
  destruct x, y; simpl; try reflexivity.
  f_equal. apply Qcplus_comm.
Qed.

Lemma add_assoc (x y z : float64) : add x (add y z) = add (add x y) z.
Proof.
  destruct x, y, z; simpl; try reflexivity.
  f_equal. apply Qcplus_assoc.
Qed.

Lemma add_zero_l (x : float64) : add zero x = x.
Proof.
  destruct x; simpl; try reflexivity.
  f_equal. apply Qcplus_0_l.
Qed.

Lemma add_not_finite_l (x y : float64) : isfinite x = false -> isfinite (add x y) = false.
Proof. destruct x, y; simpl; congruence. Qed.

Lemma add_not_finite_r (x y : float64) : isfinite y = false -> isfinite (add x y) = false.
Proof. destruct x, y; simpl; congruence. Qed.

Lemma fold_add_acc (l : list float64) (a b : float64) :
  fold_left add l (add a b) = add a (fold_left add l b).
Proof.
  revert b. induction l as [|x l IH]; intros b; simpl.
  - reflexivity.
  - rewrite <- add_assoc. apply IH.
Qed.

Lemma py_sum_cons (x : float64) (l : list float64) :
  py_sum (x :: l) = add x (py_sum l).
Proof.
  unfold py_sum. cbn [fold_left]. rewrite (add_comm zero x). apply fold_add_acc.
Qed.

Lemma py_sum_app (l1 l2 : list float64) :
  py_sum (l1 ++ l2) = add (py_sum l1) (py_sum l2).
Proof.
  induction l1 as [|x l1 IH]; cbn [app].
  - change (py_sum []) with zero. now rewrite add_zero_l.
  - rewrite !py_sum_cons, IH. apply add_assoc.
Qed.


Lemma py_sum_not_finite (l : list float64) (x : float64) :
  In x l -> isfinite x = false -> isfinite (py_sum l) = false.
Proof.
  induction l as [|y l IH]; simpl; [easy|].
  intros [->|Hin] Hx; rewrite py_sum_cons.
  - now apply add_not_finite_l.
  - apply add_not_finite_r. now apply IH.
Qed.


(** ** [np.argmax] on a mask *)

Lemma argmax_scan_true (besti i : nat) (l : list bool) :
  argmax_scan true besti i l = besti.
Proof.
  revert i. induction l as [|b l IH]; intros i; simpl; [reflexivity|apply IH].
Qed.

Lemma argmax_scan_false (besti i : nat) (l : list bool) :
  argmax_scan false besti i l =
  match first_true l with Some j => i + j | None => besti end.
Proof.
  revert i. induction l as [|b l IH]; intros i; simpl.
  - reflexivity.
  - destruct b; simpl.
    + rewrite argmax_scan_true. lia.
    + rewrite IH. destruct (first_true l); simpl; lia.
Qed.

Lemma argmax_first_true (mask : list bool) (k : nat) :
  first_true mask = Some k -> argmax mask = Ok k.
Proof.
  destruct mask as [|b l]; simpl; [discriminate|].
  destruct b.
  - intros [= <-]. now rewrite argmax_scan_true.
  - rewrite argmax_scan_false. destruct (first_true l); simpl; congruence.
Qed.

Lemma argmax_all_false (mask : list bool) :
  mask <> [] -> first_true mask = None -> argmax mask = Ok 0.
Proof.
  destruct mask as [|b l]; simpl; [congruence|].
  intros _. destruct b; [discriminate|].
  rewrite argmax_scan_false. now destruct (first_true l).
Qed.

Lemma first_true_Some (mask : list bool) (k : nat) :
  first_true mask = Some k ->
  k < List.length mask /\ nth k mask false = true /\
  forall j, j < k -> nth j mask false = false.
Proof.
  revert k. induction mask as [|b l IH]; intros k; simpl; [discriminate|].
  destruct b.
  - intros [= <-]. repeat split; [lia|]. intros j Hj. lia.
  - destruct (first_true l) as [k'|]; simpl; [|discriminate].
    intros [= <-]. destruct (IH k' eq_refl) as (Hlt & Hk & Hmin).
    repeat split; [lia|assumption|].
    intros [|j] Hj; [reflexivity|]. apply Hmin. lia.
Qed.



(** ** [np.cumsum]: entry [j] is the sum of the first [j+1] elements *)

Lemma cumsum_from_length (acc : float64) (l : list float64) :
  List.length (cumsum_from acc l) = List.length l.
Proof.
  revert acc. induction l as [|x l IH]; intros acc; simpl; [reflexivity|].
  now rewrite IH.
Qed.

Lemma cumsum_length (l : list float64) : List.length (cumsum l) = List.length l.
Proof. destruct l; simpl; [reflexivity|]. now rewrite cumsum_from_length. Qed.



Lemma nth_map_in {A B} (f : A -> B) (l : list A) (j : nat) (d : B) (d' : A) :
  j < List.length l -> nth j (map f l) d = f (nth j l d').
Proof.
  revert j. induction l as [|x l IH]; intros j Hj; simpl in *; [lia|].
  destruct j; [reflexivity|]. apply IH. lia.
Qed.


(** ** The component count *)





(** ** Target identification (predict_price, line 21) *)




(** On an empty table [idxmax] raises. *)
Lemma target_id_empty (latitude longitude : Qc) (date : Z) (property_type : string) :
  raises (target_id_of [] latitude longitude date property_type).
Proof. unfold target_id_of, idxmax. simpl. now eexists. Qed.

(** C3 (predict_price, line 21).  The table holds one row: a house at the
    requested coordinates and of the requested type, sold a day later
    than the requested date.  No row satisfies the mask, and yet the row
    is taken as the target. *)
Theorem target_id_conflates_other_date :
  let samples := [house 738001 250000] in
  target_id_of samples (Qc_of 515 10) (Qc_of (-1) 10) 738000 "D" = Ok 0 /\
  (exists s, nth_error samples 0 = Some s /\
             Sample.date_of_transfer s <> 738000%Z /\
             is_target (Qc_of 515 10) (Qc_of (-1) 10) 738000 "D" s = false).
Proof.
  split.
  - vm_compute. reflexivity.
  - eexists. split; [reflexivity|]. split; [discriminate|].
    vm_compute. reflexivity.
Qed.

(** ** get_training_samples and the connection *)

(** On the path without error the connection that was opened is closed
    again. *)
Lemma get_training_samples_closes (S : Services) (latitude longitude : Qc)
    (date : Z) (property_type : string) (date_range : Z) (area_range : Qc)
    (limit : nat) (w w' : World) (samples : list Sample.t) :
  ~ In (created w) (open_connections w) ->
  get_training_samples S latitude longitude date property_type
    date_range area_range limit w = (Ok samples, w') ->
  open_connections w' = open_connections w.
Proof.
  intros Hfresh. unfold get_training_samples, bindM, lift, create_connection, close, ret.
  destruct (get_credentials S _) as [credentials|]; [|discriminate].
  repeat match goal with
         | |- context [dict_getitem ?d ?k] =>
             destruct (dict_getitem d k); [|discriminate]
         end.
  destruct (connect S _ _ _ _ _); [|discriminate].
  destruct (query_table S _ _ _ _); [|discriminate].
  destruct (price_coordinates_data_to_df S _); [|discriminate].
  intros [= _ <-]. simpl.
  destruct (Nat.eq_dec (created w) (created w)); [|congruence].
  now apply notin_remove.
Qed.

(** When the query raises, the function leaves by the exception and the
    connection it opened stays open. *)
Lemma get_training_samples_leaks (S : Services) (latitude longitude : Qc)
    (date : Z) (property_type : string) (date_range : Z) (area_range : Qc)
    (limit : nat) (w : World) (e : exception)
    (credentials : pd.dict string string) (user password host port database : string) :
  get_credentials S "credentials.yaml" = Ok credentials ->
  dict_getitem credentials "username" = Ok user ->
  dict_getitem credentials "password" = Ok password ->
  dict_getitem credentials "url" = Ok host ->
  dict_getitem credentials "port" = Ok port ->
  dict_getitem credentials "name" = Ok database ->
  connect S user password host port database = Ok tt ->
  (forall conn table conditions, query_table S conn table conditions limit = Raise e) ->
  exists w',
    get_training_samples S latitude longitude date property_type
      date_range area_range limit w = (Raise e, w') /\
    open_connections w' = created w :: open_connections w.
Proof.
  intros Hc Hu Hp Hh Hpo Hd Hconn Hq.
  unfold get_training_samples, bindM, lift, create_connection.
  rewrite Hc, Hu, Hp, Hh, Hpo, Hd, Hconn, Hq.
  eexists. split; reflexivity.
Qed.

(** C8 (get_training_samples).  Over a database whose query fails, the
    function raises the error of the query and the connection it opened
    (handle 0) is still open when it exits. *)
Theorem get_training_samples_error_leaves_connection_open :
  exists e w',
    get_training_samples (database_services [house 738000 250000] false)
      (Qc_of 515 10) (Qc_of (-1) 10) 738000 "D" 28 (Qc_of 2 100) 500
      empty_world = (Raise e, w') /\
    cls e = "OperationalError"%string /\
    open_connections empty_world = [] /\
    open_connections w' = [0].
Proof.
  do 2 eexists. split; [vm_compute; reflexivity|].
  repeat split.
Qed.

(** ** predict_price and its handler *)

(** The statements inside [try] return a tuple when they return. *)
Lemma predict_price_body_returns_tuple (S : Services) (latitude longitude : Qc)
    (date : Z) (property_type : string) (date_range : Z) (area_range : Qc)
    (ridge : bool) (penalty : Qc) (verbose : bool) (w w' : World)
    (r : option prediction_tuple) :
  predict_price_body S latitude longitude date property_type date_range
    area_range ridge penalty verbose w = (Ok r, w') ->
  exists t, r = Some t.
Proof.
  unfold predict_price_body, bindM, lift, when.
  destruct verbose;
    repeat (cbn beta iota;
            match goal with
            | |- context [let (_, _) := ?p in _] =>
                is_var p; destruct p
            | |- context [match ?m ?x with (_, _) => _ end] =>
                let r := fresh "r" in let u := fresh "u" in
                destruct (m x) as [r u]; destruct r; [|discriminate]
            | |- context [match ?r with Ok _ => _ | Raise _ => _ end] =>
                destruct r; [|discriminate]
            end);
    intros [= <- _]; now eexists.
Qed.

(** C9 (predict_price), as amended.  Once both coordinates went through
    [float], [predict_price] does not raise.  If the statements inside
    [try] return a tuple, it returns that tuple; if one of them raises
    [e], it prints the diagnostic with the message of [e] and returns
    [None]. *)
Theorem predict_price_catches_body (S : Services) (latitude longitude : Qc)
    (date : Z) (property_type : string) (date_range : Z) (area_range : Qc)
    (ridge : bool) (penalty : Qc) (verbose : bool) (w : World) :
  exists r w',
    predict_price S (PyNum latitude) (PyNum longitude) date property_type
      date_range area_range ridge penalty verbose w = (Ok r, w') /\
    ((exists t,
        predict_price_body S latitude longitude date property_type date_range
          area_range ridge penalty verbose w = (Ok (Some t), w') /\
        r = Some t)
     \/
     (exists e wb,
        predict_price_body S latitude longitude date property_type date_range
          area_range ridge penalty verbose w = (Raise e, wb) /\
        r = None /\
        stdout w' = stdout wb ++ [diagnostic e] /\
        open_connections w' = open_connections wb)).
Proof.
  unfold predict_price, bindM, lift, float, try_except.
  destruct (predict_price_body S latitude longitude date property_type date_range
              area_range ridge penalty verbose w) as [[r|e] wb] eqn:E.
  - destruct (predict_price_body_returns_tuple _ _ _ _ _ _ _ _ _ _ _ _ _ E) as [t ->].
    exists (Some t), wb. split; [reflexivity|]. left. now exists t.
  - eexists None, _. split; [reflexivity|]. right. exists e, wb.
    repeat split.
Qed.

(** C9, as stated, fails before the [try]: [float(None)] raises a
    [TypeError], and [predict_price] lets it through. *)
Lemma predict_price_propagates_float_error :
  predict_price (database_services [] true) PyNone (PyNum (Qc_of (-1) 10))
    738000 "D" 28 (Qc_of 2 100) false 0%Qc true empty_world
  = (Raise (TypeError "float() argument must be a string or a real number, not 'NoneType'"),
     empty_world).
Proof. reflexivity. Qed.

(** ** property_feature_map *)

Lemma filter_unique_column (df : pd.DataFrame) (l : string) (cells : list pd.cell) :
  NoDup (pd.columns df) ->
  pd.lookup df l = Some cells ->
  filter (fun c => String.eqb (fst c) l) df = [(l, cells)].
Proof.
  unfold pd.columns.
  induction df as [|[l' c'] df IH]; simpl; [discriminate|].
  intros Hnd Hl. inversion Hnd as [|? ? Hnotin Hnd']; subst.
  destruct (String.eqb_spec l' l) as [->|Hneq].
  - injection Hl as ->. f_equal.
    clear IH Hnd Hnd'. induction df as [|[l'' c''] df IH]; simpl; [reflexivity|].
    simpl in Hnotin.
    destruct (String.eqb_spec l'' l) as [->|_]; [tauto|]. apply IH. tauto.
  - now apply IH.
Qed.

Lemma replace_cell_maps_to (mapping : pd.dict pd.cell pd.cell) (old : list pd.cell)
    (a b : pd.cell) :
  pd.replace_cell mapping a = b ->
  maps_to old (map (pd.replace_cell mapping) old) a b.
Proof.
  intros Hab i Hi. rewrite nth_error_map, Hi. simpl. now rewrite Hab.
Qed.

(** C10 (property_feature_map).  On a table with one column labelled
    [new_build_flag] and one labelled [tenure_type], the result has exactly
    these two columns, under these two labels: the [rename] changes
    nothing and no column is labelled [freehold_flag].  In the first column
    N became 0 and Y became 1, in the second L became 0 and F became 1. *)
Theorem property_feature_map_columns (training_rows : pd.DataFrame)
    (new_build tenure : list pd.cell) :
  NoDup (pd.columns training_rows) ->
  pd.lookup training_rows "new_build_flag" = Some new_build ->
  pd.lookup training_rows "tenure_type" = Some tenure ->
  exists new_build' tenure',
    property_feature_map training_rows
    = Ok [("new_build_flag"%string, new_build'); ("tenure_type"%string, tenure')] /\
    pd.columns [("new_build_flag"%string, new_build'); ("tenure_type"%string, tenure')]
    = ["new_build_flag"; "tenure_type"]%string /\
    ~ In "freehold_flag"%string
         (pd.columns [("new_build_flag"%string, new_build'); ("tenure_type"%string, tenure')]) /\
    List.length new_build' = List.length new_build /\
    List.length tenure' = List.length tenure /\
    maps_to new_build new_build' (pd.Str "N") (pd.Int 0) /\
    maps_to new_build new_build' (pd.Str "Y") (pd.Int 1) /\
    maps_to tenure tenure' (pd.Str "L") (pd.Int 0) /\
    maps_to tenure tenure' (pd.Str "F") (pd.Int 1).
Proof.
  intros Hnd Hnb Htt.
  unfold property_feature_map. cbn [pd.getitem_columns].
  rewrite (filter_unique_column _ _ _ Hnd Hnb), (filter_unique_column _ _ _ Hnd Htt).
  cbn.
  do 2 eexists. split; [reflexivity|].
  split; [reflexivity|]. split.
  - cbn. intros [H|[H|[]]]; discriminate.
  - rewrite !length_map. repeat split; now apply replace_cell_maps_to.
Qed.

(** Without the two columns the selection raises a [KeyError]. *)
Lemma property_feature_map_missing_column (training_rows : pd.DataFrame) :
  pd.lookup training_rows "new_build_flag" = None ->
  property_feature_map training_rows = Raise (KeyError "new_build_flag").
Proof.
  intros Hnone. unfold property_feature_map. cbn [pd.getitem_columns].
  assert (E : filter (fun c => String.eqb (fst c) "new_build_flag") training_rows = []).
  { induction training_rows as [|[l c] df IH]; simpl in *; [reflexivity|].
    destruct (String.eqb l "new_build_flag"); [discriminate|]. now apply IH. }
  now rewrite E.
Qed.

(** ** Lists: the element in the middle *)

Lemma getitem_middle {A} (pre post : list A) (x : A) :
  getitem (pre ++ x :: post) (List.length pre) = Ok x.
Proof.
  unfold getitem. rewrite nth_error_app2 by lia.
  now rewrite Nat.sub_diag.
Qed.

Lemma firstn_middle {A} (pre post : list A) :
  firstn (List.length pre) (pre ++ post) = pre.
Proof.
  rewrite firstn_app, Nat.sub_diag, firstn_all. simpl. apply app_nil_r.
Qed.

Lemma skipn_middle {A} (pre post : list A) (x : A) :
  skipn (Datatypes.S (List.length pre)) (pre ++ x :: post) = post.
Proof.
  induction pre as [|y pre IH]; [reflexivity|]. exact IH.
Qed.

Lemma delete_middle {A} (pre post : list A) (x : A) :
  np.delete (pre ++ x :: post) (List.length pre) = Ok (pre ++ post).
Proof.
  unfold np.delete.
  assert (H : (List.length pre <? List.length (pre ++ x :: post)) = true).
  { apply Nat.ltb_lt. rewrite length_app. simpl. lia. }
  now rewrite H, firstn_middle, skipn_middle.
Qed.

Lemma setitem_middle {A} (pre post : list A) (x v : A) :
  setitem (pre ++ x :: post) (List.length pre) v = Ok (pre ++ v :: post).
Proof.
  unfold setitem.
  assert (H : (List.length pre <? List.length (pre ++ x :: post)) = true).
  { apply Nat.ltb_lt. rewrite length_app. simpl. lia. }
  now rewrite H, firstn_middle, skipn_middle.
Qed.

Lemma combine_app {A B} (a a' : list A) (b b' : list B) :
  List.length a = List.length b ->
  combine (a ++ a') (b ++ b') = combine a b ++ combine a' b'.
Proof.
  revert b. induction a as [|x a IH]; intros [|y b] Hlen; simpl in *;
    try discriminate; [reflexivity|].
  f_equal. apply IH. lia.
Qed.

Lemma map_fst_combine {A B} (a : list A) (b : list B) :
  List.length a = List.length b -> map fst (combine a b) = a.
Proof.
  revert b. induction a as [|x a IH]; intros [|y b] Hlen; simpl in *;
    try discriminate; [reflexivity|].
  f_equal. apply IH. lia.
Qed.

Lemma map_snd_combine {A B} (a : list A) (b : list B) :
  List.length a = List.length b -> map snd (combine a b) = b.
Proof.
  revert b. induction a as [|x a IH]; intros [|y b] Hlen; simpl in *;
    try discriminate; [reflexivity|].
  f_equal. apply IH. lia.
Qed.


(** ** The ridge estimator *)

Lemma eliminate_length (k col : nat) (done todo result : sm.matrix) :
  sm.eliminate k col done todo = Some result ->
  List.length result = List.length done + k.
Proof.
  revert col done todo. induction k as [|k IH]; intros col done todo; simpl.
  - intros [= <-]. lia.
  - destruct (sm.find_pivot col todo) as [[p rest]|]; [|discriminate].
    intros H. apply IH in H. rewrite H, length_app, length_map. simpl. lia.
Qed.

Lemma lstsq_length (X : sm.matrix) (y : list Qc) :
  List.length (sm.lstsq X y) = sm.ncols X.
Proof.
  unfold sm.lstsq, sm.matvec, sm.gram_matrix.
  now rewrite !length_map, length_seq.
Qed.

Lemma params_length (m : sm.OLS_model) (alpha : Qc) :
  List.length (sm.params (sm.fit_regularized m alpha)) = sm.ncols (sm.exog m).
Proof.
  unfold sm.fit_regularized.
  destruct (Qceqb _ _ && _); cbn [sm.params].
  - destruct (sm.rank _ =? _); [|apply repeat_length].
    rewrite length_map. apply lstsq_length.
  - unfold sm.params_of, sm.solve.
    destruct (sm.eliminate _ _ _ _) as [result|] eqn:E.
    + rewrite !length_map. apply eliminate_length in E. simpl in E. exact E.
    + apply repeat_length.
Qed.

Lemma ncols_rectangular (k : nat) (X : sm.matrix) :
  Forall (fun r => List.length r = k) X -> X <> [] -> sm.ncols X = k.
Proof.
  intros Hrect Hne. destruct X as [|r X]; [congruence|].
  unfold sm.ncols. simpl. now inversion Hrect.
Qed.




(** ** cross_val: what the loop computes *)

Lemma cross_val_step_spec (k : nat) (penalty : Qc)
    (fpre fpost : sm.matrix) (ppre ppost : list Qc) (x : sm.row) (y : Qc)
    (P R errs : list float64) (z : float64) :
  List.length fpre = List.length ppre ->
  List.length fpost = List.length ppost ->
  List.length P = List.length fpre ->
  Forall (fun r => List.length r = k) (fpre ++ x :: fpost) ->
  fpre ++ fpost <> [] ->
  let others := combine fpre ppre ++ combine fpost ppost in
  cross_val_step (ppre ++ y :: ppost) (fpre ++ x :: fpost) penalty
                 (List.length fpre) x (P ++ z :: R, errs)
  = Ok (P ++ loo_predict penalty others x :: R,
        errs ++ [percentage_error (loo_predict penalty others x) y]).
Proof.
  intros Hpre Hpost HP Hrect Hne others.
  assert (Hfst : map fst others = fpre ++ fpost)
    by (unfold others; now rewrite map_app, !map_fst_combine).
  assert (Hsnd : map snd others = ppre ++ ppost)
    by (unfold others; now rewrite map_app, !map_snd_combine).
  assert (Hrect' : Forall (fun r => List.length r = k) (fpre ++ fpost)).
  { apply Forall_app in Hrect. destruct Hrect as [H1 H2].
    apply Forall_app. split; [assumption|now inversion H2]. }
  assert (Hx : List.length x = k).
  { apply Forall_app in Hrect. destruct Hrect as [_ H2]. now inversion H2. }
  unfold cross_val_step, loo_predict. rewrite Hfst, Hsnd.
  rewrite delete_middle.
  rewrite Hpre, getitem_middle, delete_middle. cbn [bind].
  unfold sm.OLS.
  assert (Hlen : (List.length (ppre ++ ppost) =? List.length (fpre ++ fpost)) = true).
  { apply Nat.eqb_eq. rewrite !length_app. lia. }
  rewrite Hlen. cbn [negb].
  destruct (fpre ++ fpost) as [|r X] eqn:EX; [congruence|]. cbn [bind].
  unfold sm.predict. rewrite params_length. cbn [sm.exog].
  rewrite (ncols_rectangular k (r :: X) Hrect') by discriminate.
  rewrite Hx, Nat.eqb_refl. cbn [bind getitem nth_error].
  rewrite <- Hpre, <- HP, setitem_middle. reflexivity.
Qed.

Lemma cross_val_loop_spec (k : nat) (penalty : Qc) (todo : sm.matrix) :
  forall (ptodo : list Qc) (fpre : sm.matrix) (ppre : list Qc) (P errs : list float64),
  List.length fpre = List.length ppre ->
  List.length todo = List.length ptodo ->
  List.length P = List.length fpre ->
  Forall (fun r => List.length r = k) (fpre ++ todo) ->
  2 <= List.length (fpre ++ todo) ->
  cross_val_loop (ppre ++ ptodo) (fpre ++ todo) penalty (List.length fpre) todo
                 (P ++ repeat zero (List.length todo), errs)
  = Ok (P ++ loo_predictions penalty (combine fpre ppre) (combine todo ptodo),
        errs ++ loo_errors penalty (combine fpre ppre) (combine todo ptodo)).
Proof.
  induction todo as [|x todo IH]; intros ptodo fpre ppre P errs Hpre Htodo HP Hrect HN.
  - destruct ptodo; [|discriminate]. simpl. now rewrite !app_nil_r.
  - destruct ptodo as [|y ptodo]; [discriminate|].
    simpl in Htodo. injection Htodo as Htodo.
    cbn [cross_val_loop List.length repeat].
    rewrite (cross_val_step_spec k) by
      (try assumption;
       intros E; apply (f_equal (@List.length _)) in E;
       rewrite !length_app in *; simpl in *; lia).
    cbn [bind combine loo_predictions loo_errors fst snd].
    rewrite <- combine_app by assumption.
    specialize (IH ptodo (fpre ++ [x]) (ppre ++ [y])
                  (P ++ [loo_predict penalty (combine (fpre ++ todo) (ppre ++ ptodo)) x])
                  (errs ++ [percentage_error
                              (loo_predict penalty (combine (fpre ++ todo) (ppre ++ ptodo)) x) y])).
    rewrite <- !app_assoc in IH. cbn [app] in IH.
    rewrite !length_app in IH. cbn [List.length] in IH.
    replace (Datatypes.S (List.length fpre)) with (List.length fpre + 1) by lia.
    rewrite IH; try lia; try assumption.
    + now rewrite (combine_app fpre [x] ppre [y]) by assumption.
    + rewrite length_app in HN. simpl in HN. lia.
Qed.

(** With two samples or more, as many prices as rows, and rows of one
    length, [cross_val] returns the mean of the leave-one-out errors and
    the correlation of the prices with the leave-one-out predictions. *)
Lemma cross_val_spec (k : nat) (prices : list Qc) (features : sm.matrix)
    (ridge : bool) (penalty : Qc) :
  List.length prices = List.length features ->
  2 <= List.length features ->
  Forall (fun r => List.length r = k) features ->
  cross_val prices features ridge penalty
  = Ok (div (py_sum (loo_errors penalty [] (combine features prices)))
            (of_nat (List.length features)),
        corrcoef (map Fin prices)
                 (loo_predictions penalty [] (combine features prices))).
Proof.
  intros Hlen HN Hrect. unfold cross_val.
  pose proof (cross_val_loop_spec k penalty features prices [] [] [] []
                eq_refl (eq_sym Hlen) eq_refl Hrect HN) as H.
  cbn [app List.length combine] in H. rewrite Hlen, H. cbn [bind].
  assert (Hl : List.length (loo_errors penalty [] (combine features prices))
               = List.length features).
  { generalize (@nil (sm.row * Qc)).
    assert (Hc : List.length (combine features prices) = List.length features)
      by (rewrite length_combine; lia).
    revert Hc. generalize (combine features prices). clear.
    intros l. revert features. induction l as [|s l IH]; intros features Hc before; simpl in *.
    - assumption.
    - destruct features as [|f features]; simpl in *; [discriminate|].
      f_equal. apply IH. lia. }
  unfold py_mean.
  destruct (loo_errors penalty [] (combine features prices)) as [|e errs] eqn:E.
  - simpl in Hl. lia.
  - now rewrite Hl.
Qed.

(** ** cross_val and the order of the samples *)




(** ** cross_val in binary64: the loop *)

Lemma nth_setitem {A} (a : list A) (i j : nat) (v d : A) :
  i < List.length a ->
  nth j (firstn i a ++ v :: skipn (S i) a) d = if j =? i then v else nth j a d.
Proof.
  intros Hi.
  assert (Hf : List.length (firstn i a) = i) by (rewrite length_firstn; lia).
  destruct (Nat.eqb_spec j i) as [->|Hne].
  - rewrite app_nth2 by lia. now rewrite Hf, Nat.sub_diag.
  - destruct (Nat.lt_ge_cases j i) as [Hlt|Hge].
    + rewrite app_nth1 by lia.
      rewrite <- (firstn_skipn i a) at 2. now rewrite app_nth1 by lia.
    + rewrite app_nth2 by lia. rewrite Hf.
      destruct (j - i) as [|n] eqn:E; [lia|]. cbn [nth].
      rewrite <- (firstn_skipn (S i) a) at 2.
      assert (Hf' : List.length (firstn (S i) a) = S i) by (rewrite length_firstn; lia).
      rewrite app_nth2 by lia. rewrite Hf'. f_equal. lia.
Qed.

(** One turn of the loop: the price at the index, the prediction from the
    other samples, written at the index, and its percentage error
    appended. *)
Lemma binary64_cross_val_step_spec (lib : binary64.Regression)
    (prices : list PrimFloat.float) (features : list (list PrimFloat.float))
    (penalty : PrimFloat.float) (i : nat) (x : list PrimFloat.float)
    (predictions errors predictions' errors' : list PrimFloat.float) :
  binary64.cross_val_step lib prices features penalty i x (predictions, errors)
  = Ok (predictions', errors') ->
  exists prediction target_price,
    nth_error prices i = Some target_price /\
    binary64.predict_without lib prices features penalty i x = Ok prediction /\
    i < List.length predictions /\
    predictions' = firstn i predictions ++ prediction :: skipn (S i) predictions /\
    errors' = errors ++ [binary64.percentage_error prediction target_price].
Proof.
  unfold binary64.cross_val_step, binary64.predict_without, getitem.
  destruct (nth_error prices i) as [target_price|]; [|discriminate].
  cbn [bind].
  destruct (np.delete features i) as [train_features|]; [|discriminate].
  destruct (np.delete prices i) as [train_prices|]; [|discriminate].
  cbn [bind].
  destruct (binary64.OLS lib train_prices train_features) as [m|]; [|discriminate].
  cbn [bind].
  destruct (binary64.fit_regularized lib m penalty) as [res|]; [|discriminate].
  cbn [bind].
  destruct (binary64.predict lib res x) as [predicted|]; [|discriminate].
  cbn [bind].
  destruct (nth_error predicted 0) as [prediction|]; [|discriminate].
  cbn [bind]. unfold setitem.
  destruct (Nat.ltb_spec i (List.length predictions)) as [Hi|Hi]; [|discriminate].
  cbn [bind]. intros [= <- <-].
  exists prediction, target_price. repeat split. assumption.
Qed.

Lemma binary64_cross_val_loop_spec (lib : binary64.Regression)
    (prices : list PrimFloat.float) (features : list (list PrimFloat.float))
    (penalty : PrimFloat.float) :
  forall todo i predictions errors predictions' errors',
  binary64.cross_val_loop lib prices features penalty i todo (predictions, errors)
  = Ok (predictions', errors') ->
  List.length predictions' = List.length predictions /\
  List.length errors' = List.length errors + List.length todo /\
  (forall j, j < i \/ i + List.length todo <= j ->
     nth j predictions' binary64.zero = nth j predictions binary64.zero) /\
  (forall j, j < List.length errors ->
     nth j errors' binary64.zero = nth j errors binary64.zero) /\
  (forall j x, nth_error todo j = Some x ->
     exists target_price,
       nth_error prices (i + j) = Some target_price /\
       i + j < List.length predictions /\
       binary64.predict_without lib prices features penalty (i + j) x
       = Ok (nth (i + j) predictions' binary64.zero) /\
       nth (List.length errors + j) errors' binary64.zero
       = binary64.percentage_error (nth (i + j) predictions' binary64.zero) target_price).
Proof.
  induction todo as [|x todo IH];
    intros i predictions errors predictions' errors'; cbn [binary64.cross_val_loop].
  - intros [= <- <-]. cbn [List.length]. repeat split; try lia.
    intros [|j] y; discriminate.
  - destruct (binary64.cross_val_step lib prices features penalty i x
                (predictions, errors)) as [[p1 e1]|] eqn:Hstep; [|discriminate].
    cbn [bind]. intros Hloop.
    destruct (binary64_cross_val_step_spec _ _ _ _ _ _ _ _ _ _ Hstep)
      as (prediction & target_price & Hprice & Hpred & Hi & Hp1 & He1).
    destruct (IH _ _ _ _ _ Hloop) as (Hlp & Hle & Hout & Hold & Hnew).
    assert (Hlp1 : List.length p1 = List.length predictions).
    { subst p1. rewrite length_app. cbn [List.length].
      rewrite length_firstn, length_skipn. lia. }
    assert (Hle1 : List.length e1 = S (List.length errors)).
    { subst e1. rewrite length_app. cbn [List.length]. lia. }
    assert (Hnth1 : forall j, nth j p1 binary64.zero
                     = if j =? i then prediction else nth j predictions binary64.zero).
    { intros j. subst p1. now apply nth_setitem. }
    cbn [List.length]. split; [congruence|]. split; [lia|]. split; [|split].
    + intros j Hj. rewrite Hout by lia. rewrite Hnth1.
      destruct (Nat.eqb_spec j i); [lia|reflexivity].
    + intros j Hj. rewrite Hold by lia. subst e1. now rewrite app_nth1.
    + intros [|j] y; cbn [nth_error].
      * intros [= <-]. exists target_price. rewrite !Nat.add_0_r.
        assert (Hat : nth i predictions' binary64.zero = prediction).
        { rewrite Hout by lia. rewrite Hnth1. now rewrite Nat.eqb_refl. }
        rewrite Hat. repeat split; try assumption.
        rewrite Hold by lia. subst e1. rewrite app_nth2 by lia.
        now rewrite Nat.sub_diag.
      * intros Hy. destruct (Hnew j y Hy) as (tp & Htp & Hlt & Hpw & Herr).
        exists tp. replace (i + S j) with (S i + j) by lia.
        replace (List.length errors + S j) with (List.length e1 + j) by lia.
        repeat split; try assumption. lia.
Qed.

Lemma binary64_cross_val_step_returns (lib : binary64.Regression)
    (prices : list PrimFloat.float) (features : list (list PrimFloat.float))
    (penalty : PrimFloat.float) (i : nat) (x : list PrimFloat.float)
    (predictions errors : list PrimFloat.float)
    (target_price prediction : PrimFloat.float) :
  nth_error prices i = Some target_price ->
  binary64.predict_without lib prices features penalty i x = Ok prediction ->
  i < List.length predictions ->
  binary64.cross_val_step lib prices features penalty i x (predictions, errors)
  = Ok (firstn i predictions ++ prediction :: skipn (S i) predictions,
        errors ++ [binary64.percentage_error prediction target_price]).
Proof.
  intros Hprice Hpred Hi.
  unfold binary64.cross_val_step, binary64.predict_without, getitem in *.
  rewrite Hprice. cbn [bind].
  destruct (np.delete features i) as [train_features|]; [|discriminate].
  destruct (np.delete prices i) as [train_prices|]; [|discriminate].
  cbn [bind] in *.
  destruct (binary64.OLS lib train_prices train_features) as [m|]; [|discriminate].
  cbn [bind] in *.
  destruct (binary64.fit_regularized lib m penalty) as [res|]; [|discriminate].
  cbn [bind] in *.
  destruct (binary64.predict lib res x) as [predicted|]; [|discriminate].
  cbn [bind] in *.
  destruct (nth_error predicted 0) as [p|]; [|discriminate].
  injection Hpred as ->. cbn [bind]. unfold setitem.
  destruct (Nat.ltb_spec i (List.length predictions)) as [_|]; [|lia].
  reflexivity.
Qed.

(** The loop returns when every prediction it asks for is made. *)
Lemma binary64_cross_val_loop_returns (lib : binary64.Regression)
    (prices : list PrimFloat.float) (features : list (list PrimFloat.float))
    (penalty : PrimFloat.float) :
  forall todo i predictions errors,
  i + List.length todo <= List.length predictions ->
  i + List.length todo <= List.length prices ->
  (forall j x, nth_error todo j = Some x ->
     exists prediction,
       binary64.predict_without lib prices features penalty (i + j) x = Ok prediction) ->
  exists predictions' errors',
    binary64.cross_val_loop lib prices features penalty i todo (predictions, errors)
    = Ok (predictions', errors').
Proof.
  induction todo as [|x todo IH]; intros i predictions errors Hp Hl Hall;
    cbn [binary64.cross_val_loop List.length] in *.
  - now exists predictions, errors.
  - destruct (Hall 0 x eq_refl) as [prediction Hpred].
    rewrite Nat.add_0_r in Hpred.
    destruct (nth_error prices i) as [target_price|] eqn:Hprice;
      [|apply nth_error_None in Hprice; lia].
    rewrite (binary64_cross_val_step_returns _ _ _ _ _ _ _ _ _ _ Hprice Hpred)
      by lia.
    cbn [bind]. apply IH.
    + rewrite length_app. cbn [List.length].
      rewrite length_firstn, length_skipn. lia.
    + lia.
    + intros j y Hy. replace (S i + j) with (i + S j) by lia.
      now apply Hall.
Qed.

Lemma nth_error_reorder {A} (d : A) (perm : list nat) (l : list A) (i : nat) (x : A) :
  nth_error (reorder d perm l) i = Some x ->
  exists j, nth_error perm i = Some j /\ x = nth j l d.
Proof.
  unfold reorder. rewrite nth_error_map.
  destruct (nth_error perm i) as [j|]; [|discriminate].
  intros [= <-]. now exists j.
Qed.

Lemma nth_error_nth_Some {A} (l : list A) (j : nat) (d : A) :
  j < List.length l -> nth_error l j = Some (nth j l d).
Proof. intros H. now apply nth_error_nth'. Qed.

(** ** cross_val in binary64 and the order of the samples *)

(** C5 (cross_val), as amended.  In binary64 and whatever the regression
    library is: the samples are put in the order [perm] of their indices,
    rows and prices together, and the library makes the same prediction
    for each sample from the others in either order.  Then a call that
    returns for the samples returns for the reordered samples, with the
    same percentage errors in the new order; each average is the sum of
    its list from left to right, divided by the number of samples. *)
Theorem cross_val_reordered_samples (lib : binary64.Regression)
    (prices : list PrimFloat.float) (features : list (list PrimFloat.float))
    (ridge : bool) (penalty avg_pct_error : PrimFloat.float)
    (corr : binary64.correlation) (perm : list nat) :
  let prices' := reorder binary64.zero perm prices in
  let features' := reorder [] perm features in
  Permutation perm (seq 0 (List.length features)) ->
  (forall i j, nth_error perm i = Some j ->
     binary64.predict_without lib prices' features' penalty i (nth j features [])
     = binary64.predict_without lib prices features penalty j (nth j features [])) ->
  binary64.cross_val lib prices features ridge penalty = Ok (avg_pct_error, corr) ->
  exists percentage_errors avg_pct_error' corr',
    binary64.cross_val lib prices' features' ridge penalty = Ok (avg_pct_error', corr') /\
    List.length percentage_errors = List.length features /\
    avg_pct_error
    = PrimFloat.div (binary64.py_sum percentage_errors)
                    (binary64.of_nat (List.length features)) /\
    avg_pct_error'
    = PrimFloat.div (binary64.py_sum (reorder binary64.zero perm percentage_errors))
                    (binary64.of_nat (List.length features)).
Proof.
  intros prices' features' Hperm Hlib.
  assert (HN : List.length perm = List.length features).
  { rewrite (Permutation_length Hperm). apply length_seq. }
  assert (Hin : forall i j, nth_error perm i = Some j -> j < List.length features).
  { intros i j Hj. apply nth_error_In in Hj.
    apply (Permutation_in _ Hperm), in_seq in Hj. lia. }
  assert (Hf' : List.length features' = List.length features).
  { unfold features', reorder. now rewrite length_map. }
  assert (Hp' : List.length prices' = List.length features).
  { unfold prices', reorder. now rewrite length_map. }
  unfold binary64.cross_val.
  destruct (binary64.cross_val_loop lib prices features penalty 0 features
              (repeat binary64.zero (List.length prices), []))
    as [[predictions errors]|] eqn:Hloop; [|discriminate].
  cbn [bind]. unfold binary64.py_mean.
  destruct (binary64_cross_val_loop_spec _ _ _ _ _ _ _ _ _ _ Hloop)
    as (_ & Hle & _ & _ & Hnew).
  cbn [List.length Nat.add] in Hle, Hnew.
  destruct errors as [|e rest] eqn:Eerr; [discriminate|]. rewrite <- Eerr in *.
  cbn [bind]. intros [= <- _].
  assert (Hpos : 0 < List.length features).
  { rewrite <- Hle, Eerr. cbn [List.length]. lia. }
  (* the prediction for the sample [j] of the first call *)
  assert (Hfirst : forall j, j < List.length features ->
            nth_error prices j = Some (nth j prices binary64.zero) /\
            binary64.predict_without lib prices features penalty j (nth j features [])
            = Ok (nth j predictions binary64.zero) /\
            nth j errors binary64.zero
            = binary64.percentage_error (nth j predictions binary64.zero)
                                        (nth j prices binary64.zero)).
  { intros j Hj.
    destruct (Hnew j _ (nth_error_nth_Some features j [] Hj))
      as (tp & Htp & _ & Hpw & Herr).
    assert (Hnth : nth j prices binary64.zero = tp) by now apply nth_error_nth.
    rewrite Hnth. now repeat split. }
  (* the second call returns *)
  destruct (binary64_cross_val_loop_returns lib prices' features' penalty features' 0
              (repeat binary64.zero (List.length prices')) [])
    as (predictions' & errors' & Hloop').
  { rewrite repeat_length. cbn [Nat.add]. lia. }
  { cbn [Nat.add]. lia. }
  { intros i x' Hx'. cbn [Nat.add].
    destruct (nth_error_reorder _ _ _ _ _ Hx') as (j & Hj & ->).
    exists (nth j predictions binary64.zero).
    rewrite (Hlib i j Hj). apply Hfirst. now apply (Hin i). }
  rewrite Hloop'. cbn [bind].
  destruct (binary64_cross_val_loop_spec _ _ _ _ _ _ _ _ _ _ Hloop')
    as (_ & Hle' & _ & _ & Hnew').
  cbn [List.length Nat.add] in Hle', Hnew'. rewrite Hf' in Hle'.
  assert (Heq : errors' = reorder binary64.zero perm errors).
  { apply nth_ext with (d := binary64.zero) (d' := binary64.zero).
    - unfold reorder. rewrite length_map. lia.
    - intros i Hi. rewrite Hle' in Hi.
      unfold reorder. rewrite (nth_map_in _ perm i binary64.zero 0) by lia.
      set (j := nth i perm 0).
      assert (Hj : nth_error perm i = Some j)
        by (apply nth_error_nth_Some; lia).
      assert (Hjl : j < List.length features) by now apply (Hin i).
      assert (Hx' : nth_error features' i = Some (nth j features [])).
      { unfold features', reorder. rewrite nth_error_map, Hj. reflexivity. }
      destruct (Hnew' i _ Hx') as (tp' & Htp' & _ & Hpw' & Herr').
      assert (Htp : tp' = nth j prices binary64.zero).
      { unfold prices', reorder in Htp'. rewrite nth_error_map, Hj in Htp'.
        now injection Htp' as <-. }
      destruct (Hfirst j Hjl) as (_ & Hpw & Herr).
      rewrite (Hlib i j Hj), Hpw in Hpw'. injection Hpw' as Hpred.
      rewrite Herr', Herr, Htp, <- Hpred. reflexivity. }
  destruct errors' as [|e' rest'] eqn:Eerr';
    [cbn [List.length] in Hle'; lia|]. rewrite <- Eerr' in *.
  cbn [bind]. exists errors. do 2 eexists.
  split; [reflexivity|]. split; [assumption|].
  split; [now rewrite Hle|]. now rewrite Hle', Heq.
Qed.

(** ** cross_val and a price of zero *)

Lemma signed_inf_not_finite (q : Qc) (pos : float64) :
  isfinite pos = false -> isfinite (signed_inf q pos) = false.
Proof.
  unfold signed_inf. intros Hpos.
  destruct (Qceqb q 0); [reflexivity|].
  destruct (Qcltb 0 q); [assumption|]. now destruct pos.
Qed.

Lemma div_zero_not_finite (x : float64) : isfinite (div x zero) = false.
Proof.
  destruct x; unfold zero; cbn [div].
  - rewrite Qceqb_refl. now apply signed_inf_not_finite.
  - now destruct (Qcltb _ _).
  - now destruct (Qcltb _ _).
  - reflexivity.
Qed.

Lemma div_not_finite_l (x : float64) (b : Qc) :
  isfinite x = false -> isfinite (div x (Fin b)) = false.
Proof.
  destruct x; cbn [div isfinite]; try discriminate; intros _.
  - now destruct (Qcltb _ _).
  - now destruct (Qcltb _ _).
  - reflexivity.
Qed.

Lemma percentage_error_zero_price (prediction : float64) :
  isfinite (percentage_error prediction 0%Qc) = false.
Proof. unfold percentage_error. apply div_zero_not_finite. Qed.

Lemma loo_errors_In (penalty : Qc) (todo : list (sm.row * Qc)) (x : sm.row) (y : Qc) :
  forall before : list (sm.row * Qc),
  In (x, y) todo ->
  exists prediction, In (percentage_error prediction y) (loo_errors penalty before todo).
Proof.
  induction todo as [|s todo IH]; intros before; simpl; [easy|].
  intros [->|Hin].
  - eexists. left. reflexivity.
  - destruct (IH (before ++ [s]) Hin) as [p Hp]. exists p. now right.
Qed.

Lemma In_combine_r {A B} (a : list A) (b : list B) (y : B) :
  List.length b = List.length a -> In y b -> exists x, In (x, y) (combine a b).
Proof.
  revert b. induction a as [|x a IH]; intros [|y' b] Hlen; simpl in *;
    try discriminate; [easy|].
  intros [->|Hin].
  - exists x. now left.
  - destruct (IH b ltac:(lia) Hin) as [x' Hx']. exists x'. now right.
Qed.

(** C2 (cross_val), as amended.  With two samples or more (as many prices
    as rows, rows of one length), a price of zero does not make [cross_val]
    raise: it returns, and the average it returns is not a finite number
    (an infinity, or [NaN]). *)
Theorem cross_val_zero_price_not_finite (k : nat) (prices : list Qc)
    (features : sm.matrix) (ridge : bool) (penalty : Qc) :
  List.length prices = List.length features ->
  2 <= List.length features ->
  Forall (fun r => List.length r = k) features ->
  In 0%Qc prices ->
  exists avg_pct_error corr,
    cross_val prices features ridge penalty = Ok (avg_pct_error, corr) /\
    isfinite avg_pct_error = false.
Proof.
  intros Hlen HN Hrect Hzero.
  rewrite (cross_val_spec k) by assumption.
  do 2 eexists. split; [reflexivity|].
  apply div_not_finite_l.
  destruct (In_combine_r features prices 0%Qc Hlen Hzero) as [x Hx].
  destruct (loo_errors_In penalty _ x 0%Qc [] Hx) as [p Hp].
  eapply py_sum_not_finite; [exact Hp|].
  apply percentage_error_zero_price.
Qed.

(** C2, as stated, fails: the first of three prices is zero, and
    [cross_val] returns an infinite average. *)
Lemma cross_val_zero_price_returns_infinity :
  In 0%Qc [0%Qc; Qc_of 1 1; Qc_of 2 1] /\
  average_error
    (cross_val [0%Qc; Qc_of 1 1; Qc_of 2 1]
               [[Qc_of 10 1]; [Qc_of 1 1]; [Qc_of 1 1]] false 0%Qc)
  = Ok PInf.
Proof.
  split; [now left|]. vm_compute. reflexivity.
Qed.

(** ** cross_val with and without the target row *)

Lemma returns_float_eq (r : result float64) (x : float64) :
  returns_float r x = true -> r = Ok x.
Proof.
  destruct r as [y|e]; simpl; [|discriminate].
  intros H. now rewrite (float64_eqb_eq _ _ H).
Qed.

(** C6, as amended.  After the target row has left the arrays, the
    cross-validated result is that of the other rows alone: it is the
    same whatever the price and the features of the target are. *)
Theorem cross_val_without_target_ignores_target
    (ppre ppost : list Qc) (fpre fpost : sm.matrix)
    (target_price target_price' : Qc) (target_features target_features' : sm.row)
    (ridge : bool) (penalty : Qc) :
  List.length ppre = List.length fpre ->
  cross_val_without_target (ppre ++ target_price :: ppost)
    (fpre ++ target_features :: fpost) (List.length fpre) ridge penalty
  = cross_val_without_target (ppre ++ target_price' :: ppost)
      (fpre ++ target_features' :: fpost) (List.length fpre) ridge penalty
  /\ cross_val_without_target (ppre ++ target_price :: ppost)
       (fpre ++ target_features :: fpost) (List.length fpre) ridge penalty
     = cross_val (ppre ++ ppost) (fpre ++ fpost) ridge penalty.
Proof.
  intros Hlen. unfold cross_val_without_target.
  rewrite !delete_middle. rewrite <- Hlen, !delete_middle. now split.
Qed.

(** C6, as stated, fails.  Three samples with one feature, the target
    first: left in, the average error is 2550/101 (about 25.2); with the
    target removed, as [predict_price] does, it is 75. *)
Lemma removing_target_raises_average :
  let prices := [Qc_of 15 1; Qc_of 1 1; Qc_of 2 1] in
  let features := [[Qc_of 10 1]; [Qc_of 1 1]; [Qc_of 1 1]] in
  average_error (cross_val prices features false 0%Qc)
    = Ok (Fin (Qc_of 2550 101)) /\
  average_error (cross_val_without_target prices features 0 false 0%Qc)
    = Ok (Fin (Qc_of 75 1)) /\
  (Qc_of 2550 101 < Qc_of 75 1)%Qc.
Proof.
  repeat split.
  - apply returns_float_eq. vm_compute. reflexivity.
  - apply returns_float_eq. vm_compute. reflexivity.
Qed.

(** ** Gauss-Jordan elimination solves the system *)















(** ** Sums of rationals *)
















(** ** The normal equations and the ridge objective

    [b] solves the normal equations [(X'X + c*I) b = X'y] of the samples
    [X], [y]; then moving away from [b] by [d] adds
    [|X d|^2 + c * |d|^2] to the objective. *)

Section Ridge.

Variables (k : nat) (X : sm.matrix) (y : list Qc) (c : Qc) (b : list Qc).
Hypothesis Hrect : Forall (fun r => List.length r = k) X.
Hypothesis Hlen : List.length y = List.length X.
Hypothesis Hb : List.length b = k.
Hypothesis NE : forall a, a < k ->
  dotQ (map (fun j => if a =? j then (sm.gram X a j + c)%Qc else sm.gram X a j)
            (seq 0 k)) b
  = sm.xty X y a.

Let e (ry : sm.row * Qc) : Qc := (snd ry - dotQ (fst ry) b)%Qc.








End Ridge.

(** ** The ridge fit minimises its objective *)








(** ** A penalty of zero *)



(** ** Products of rows and vectors *)







Lemma residual_dotQ r b :
  List.length r = S (List.length b) ->
  residual r b = (dotQ r b - nth (List.length b) r 0)%Qc.
Proof.
  revert r. induction b as [|bj b IH]; intros [|rj r] H;
    cbn [List.length] in H; try discriminate.
  - cbn [residual dotQ hd nth List.length]. ring.
  - cbn [residual dotQ nth List.length]. rewrite IH by lia. ring.
Qed.


(** ** The elimination succeeds on independent columns *)










(** ** The Gram matrix of independent columns *)













(** ** The elimination that passes over columns, when none is passed over *)






(** ** The square of a matrix *)


(** ** Least squares by the pseudo-inverse *)









(** ** The theorems at concrete inputs *)

(** The cut-off at the ratios 0.6, 0.3, 0.1 and the default threshold:
    three components are kept. *)
Lemma component_cutoff_three :
  component_cutoff [Fin (Qc_of 6 10); Fin (Qc_of 3 10); Fin (Qc_of 1 10)]
                   default_threshold = Ok 3.
Proof. vm_compute. reflexivity. Qed.




(** C5, as amended, at three samples, rotated. *)
Lemma cross_val_reordered_samples_witness :
  exists avg_pct_error corr,
    binary64.cross_val binary64.rounded_ridge
      [binary64.of_Z 15; binary64.of_Z 1; binary64.of_Z 2]
      [[binary64.of_Z 10]; [binary64.of_Z 1]; [binary64.of_Z 1]]
      false binary64.zero
    = Ok (avg_pct_error, corr) /\
    exists percentage_errors avg_pct_error' corr',
      binary64.cross_val binary64.rounded_ridge
        [binary64.of_Z 1; binary64.of_Z 2; binary64.of_Z 15]
        [[binary64.of_Z 1]; [binary64.of_Z 1]; [binary64.of_Z 10]]
        false binary64.zero
      = Ok (avg_pct_error', corr') /\
      List.length percentage_errors = 3 /\
      avg_pct_error
      = PrimFloat.div (binary64.py_sum percentage_errors) (binary64.of_nat 3) /\
      avg_pct_error'
      = PrimFloat.div
          (binary64.py_sum (reorder binary64.zero [1; 2; 0] percentage_errors))
          (binary64.of_nat 3).
Proof.
  do 2 eexists. split; [vm_compute; reflexivity|].
  eapply (cross_val_reordered_samples binary64.rounded_ridge
           [binary64.of_Z 15; binary64.of_Z 1; binary64.of_Z 2]
           [[binary64.of_Z 10]; [binary64.of_Z 1]; [binary64.of_Z 1]]
           false binary64.zero _ _ [1; 2; 0]).
  - apply Permutation_sym, (Permutation_cons_append [1; 2] 0).
  - intros [|[|[|[|i]]]] j H; cbn [nth_error] in H; try discriminate;
      injection H as <-; vm_compute; reflexivity.
  - vm_compute. reflexivity.
Defined.


(** C2, as amended, at three samples of which the first has price zero. *)
Lemma cross_val_zero_price_not_finite_witness :
  exists avg_pct_error corr,
    cross_val [0%Qc; Qc_of 1 1; Qc_of 2 1]
              [[Qc_of 10 1]; [Qc_of 1 1]; [Qc_of 1 1]] false 0%Qc
    = Ok (avg_pct_error, corr) /\
    isfinite avg_pct_error = false.
Proof.
  apply (cross_val_zero_price_not_finite 1).
  - reflexivity.
  - simpl. lia.
  - repeat constructor.
  - now left.
Defined.

(** C6, as amended, at three samples with the target in the middle. *)
Lemma cross_val_without_target_ignores_target_witness :
  cross_val_without_target [Qc_of 1 1; Qc_of 15 1; Qc_of 2 1]
    [[Qc_of 1 1]; [Qc_of 10 1]; [Qc_of 1 1]] 1 false 0%Qc
  = cross_val_without_target [Qc_of 1 1; Qc_of 40 1; Qc_of 2 1]
      [[Qc_of 1 1]; [Qc_of 3 1]; [Qc_of 1 1]] 1 false 0%Qc
  /\ cross_val_without_target [Qc_of 1 1; Qc_of 15 1; Qc_of 2 1]
       [[Qc_of 1 1]; [Qc_of 10 1]; [Qc_of 1 1]] 1 false 0%Qc
     = cross_val [Qc_of 1 1; Qc_of 2 1] [[Qc_of 1 1]; [Qc_of 1 1]] false 0%Qc.
Proof.
  apply (cross_val_without_target_ignores_target
           [Qc_of 1 1] [Qc_of 2 1] [[Qc_of 1 1]] [[Qc_of 1 1]]
           (Qc_of 15 1) (Qc_of 40 1) [Qc_of 10 1] [Qc_of 3 1] false 0%Qc).
  reflexivity.
Defined.

(** C10 at the frame of two houses. *)
Lemma property_feature_map_columns_witness :
  exists new_build' tenure',
    property_feature_map (as_frame [house 738000 250000; house 738001 300000])
    = Ok [("new_build_flag"%string, new_build'); ("tenure_type"%string, tenure')] /\
    pd.columns [("new_build_flag"%string, new_build'); ("tenure_type"%string, tenure')]
    = ["new_build_flag"; "tenure_type"]%string /\
    ~ In "freehold_flag"%string
         (pd.columns [("new_build_flag"%string, new_build'); ("tenure_type"%string, tenure')]) /\
    List.length new_build' = 2 /\
    List.length tenure' = 2 /\
    maps_to [pd.Str "N"; pd.Str "N"] new_build' (pd.Str "N") (pd.Int 0) /\
    maps_to [pd.Str "N"; pd.Str "N"] new_build' (pd.Str "Y") (pd.Int 1) /\
    maps_to [pd.Str "F"; pd.Str "F"] tenure' (pd.Str "L") (pd.Int 0) /\
    maps_to [pd.Str "F"; pd.Str "F"] tenure' (pd.Str "F") (pd.Int 1).
Proof.
  apply (property_feature_map_columns
           (as_frame [house 738000 250000; house 738001 300000])
           [pd.Str "N"; pd.Str "N"] [pd.Str "F"; pd.Str "F"]).
  - repeat constructor; simpl; intuition discriminate.
  - reflexivity.
  - reflexivity.
Defined.


(** The parameters of that fit are 4/3 and 7/3, from either estimator. *)
Lemma fit_regularized_zero_example :
  returns_floats
    (Ok (sm.params (sm.fit_regularized
                      (sm.mkOLS [Qc_of 1 1; Qc_of 2 1; Qc_of 4 1]
                                [[1%Qc; 0%Qc]; [0%Qc; 1%Qc]; [1%Qc; 1%Qc]]) 0%Qc)))
    [Fin (Qc_of 4 3); Fin (Qc_of 7 3)] = true /\
  returns_floats
    (Ok (sm.params (sm.fit (sm.mkOLS [Qc_of 1 1; Qc_of 2 1; Qc_of 4 1]
                                     [[1%Qc; 0%Qc]; [0%Qc; 1%Qc]; [1%Qc; 1%Qc]]))))
    [Fin (Qc_of 4 3); Fin (Qc_of 7 3)] = true.
Proof. split; vm_compute; reflexivity. Qed.


(** ** The whole pipeline on a small table *)

(** Four detached houses at the same place; the second one is the target
    (sold on day 738000 for 250000).  With every sample projected to 1,
    the prediction is the mean price of the three others. *)
Lemma predict_price_example :
  exists avg_percent_error corr w',
    predict_price
      (database_services [house 738001 200000; house 738000 250000;
                          house 737999 300000; house 738002 260000] true)
      (PyNum (Qc_of 515 10)) (PyNum (Qc_of (-1) 10)) 738000 "D" 28 (Qc_of 2 100)
      false 0%Qc false empty_world
    = (Ok (Some (Fin (Qc_of 760000 3), Sample.price (house 738000 250000),
                 avg_percent_error, corr)), w') /\
    open_connections w' = [].
Proof.
  do 3 eexists. split.
  - vm_compute. reflexivity.
  - reflexivity.
Qed.

(** The same request on a table without the target: the pipeline does not
    stop, it takes the first row (sold on another day, for 200000) for the
    target, removes it from the training set and reports its price as
    the actual price. *)
Lemma predict_price_without_match_uses_first_row :
  exists prediction avg_percent_error corr w',
    predict_price
      (database_services [house 738001 200000; house 737999 300000;
                          house 738002 260000] true)
      (PyNum (Qc_of 515 10)) (PyNum (Qc_of (-1) 10)) 738000 "D" 28 (Qc_of 2 100)
      false 0%Qc false empty_world
    = (Ok (Some (prediction, Sample.price (house 738001 200000),
                 avg_percent_error, corr)), w').
Proof.
  do 4 eexists. vm_compute. reflexivity.
Qed.

(** When the query fails, [predict_price] prints the diagnostic and
    returns [None]; the connection of [get_training_samples] is still
    open afterwards. *)
Lemma predict_price_reports_query_failure :
  predict_price (database_services [house 738000 250000] false)
    (PyNum (Qc_of 515 10)) (PyNum (Qc_of (-1) 10)) 738000 "D" 28 (Qc_of 2 100)
    false 0%Qc true empty_world
  = (Ok None,
     mkWorld
       [Text "Collecting training samples";
        Text "The following error occured whilst trying to make a prediction: Lost connection to MySQL server during query"]
       [0] 1).
Proof. vm_compute. reflexivity. Qed.

(** * Further properties of the code *)

(** ** The component count, whatever the threshold *)

Lemma argmax_in_bounds (mask : list bool) (k : nat) :
  argmax mask = Ok k -> k < List.length mask.
Proof.
  destruct mask as [|b l]; [discriminate|].
  destruct (first_true (b :: l)) as [j|] eqn:E.
  - rewrite (argmax_first_true _ _ E). intros [= <-].
    now destruct (first_true_Some _ _ E).
  - rewrite (argmax_all_false (b :: l)) by (congruence || assumption).
    intros [= <-]. simpl. lia.
Qed.

Lemma convert_to_principle_components_inv (S : Services)
    (pois_by_features : list (PoiCounts S))
    (encoded_property_features : pd.DataFrame)
    (threshold : float64) (projected : sm.matrix) :
  convert_to_principle_components S pois_by_features encoded_property_features
    threshold = Ok projected ->
  exists (n : nat) (corr : pd.Corr) (pca : PCA) (df : pd.DataFrame)
         (transformed : sm.matrix) (k : nat),
    PCA_fit S n corr = Ok pca /\
    transform pca df = Ok transformed /\
    component_cutoff (explained_variance_ratio_ pca) threshold = Ok k /\
    projected = map (firstn k) transformed.
Proof.
  unfold convert_to_principle_components. intros H.
  destruct (DataFrame_of S pois_by_features) as [df0|]; [|discriminate].
  cbn [bind] in H.
  match type of H with
  | context [PCA_fit S ?n ?c] =>
      destruct (PCA_fit S n c) as [pca|] eqn:Efit; [|discriminate];
      exists n, c, pca
  end.
  cbn [bind] in H.
  destruct (component_cutoff (explained_variance_ratio_ pca) threshold)
    as [k|] eqn:Ecut; [|discriminate].
  cbn [bind] in H.
  match type of H with
  | context [transform pca ?d] =>
      destruct (transform pca d) as [transformed|] eqn:Etr; [|discriminate];
      exists d, transformed, k
  end.
  cbn [bind] in H. injection H as <-.
  do 3 (split; [first [reflexivity|assumption]|]). reflexivity.
Qed.

(** X1 (convert_to_principle_components).  Whatever the threshold, the
    function keeps at least one component and never more than the PCA
    has: each row of the result is a row of the projection cut after
    [k] entries, with [1 <= k <= len(explained_variance_ratio_)], and
    there are as many rows as in the projection. *)
Theorem convert_to_principle_components_shape (S : Services)
    (pois_by_features : list (PoiCounts S))
    (encoded_property_features : pd.DataFrame)
    (threshold : float64) (projected : sm.matrix) :
  convert_to_principle_components S pois_by_features encoded_property_features
    threshold = Ok projected ->
  exists (n : nat) (corr : pd.Corr) (pca : PCA) (df : pd.DataFrame)
         (transformed : sm.matrix) (k : nat),
    PCA_fit S n corr = Ok pca /\
    transform pca df = Ok transformed /\
    1 <= k <= List.length (explained_variance_ratio_ pca) /\
    List.length projected = List.length transformed /\
    Forall (fun r => List.length r <= k) projected /\
    forall i r, nth_error transformed i = Some r ->
                nth_error projected i = Some (firstn k r).
Proof.
  intros H.
  destruct (convert_to_principle_components_inv _ _ _ _ _ H)
    as (n & corr & pca & df & transformed & k & Hfit & Htr & Hcut & ->).
  exists n, corr, pca, df, transformed, k.
  split; [assumption|]. split; [assumption|]. split.
  - unfold component_cutoff in Hcut.
    destruct (argmax _) as [j|] eqn:Ej; [|discriminate].
    cbn [bind] in Hcut. injection Hcut as <-.
    apply argmax_in_bounds in Ej. rewrite length_map, cumsum_length in Ej. lia.
  - split; [apply length_map|]. split.
    + apply Forall_map, Forall_forall. intros r _. apply firstn_le_length.
    + intros i r Hi. now rewrite nth_error_map, Hi.
Qed.



(** ** Target identification: when some row matches *)


(** X4 (predict_price, line 21).  The target identification raises on
    the empty table and only there; the index it returns is a position
    of the table, so that the rows read at it exist. *)
Theorem target_id_in_bounds (samples : list Sample.t)
    (latitude longitude : Qc) (date : Z) (property_type : string) :
  (samples = [] ->
   target_id_of samples latitude longitude date property_type
   = Raise (ValueError "attempt to get argmax of an empty sequence")) /\
  (samples <> [] ->
   exists k s,
     target_id_of samples latitude longitude date property_type = Ok k /\
     nth_error samples k = Some s).
Proof.
  split.
  - intros ->. reflexivity.
  - intros Hne. unfold target_id_of, idxmax.
    destruct (argmax _) as [k|e] eqn:E.
    + apply argmax_in_bounds in E. rewrite length_map in E.
      destruct (nth_error samples k) as [s|] eqn:Es.
      * now exists k, s.
      * apply nth_error_None in Es. lia.
    + destruct samples; [congruence|discriminate].
Qed.

(** ** property_feature_map: which tables it accepts *)

Lemma filter_label_nil (df : pd.DataFrame) (l : string) :
  filter (fun c => String.eqb (fst c) l) df = [] <-> ~ In l (pd.columns df).
Proof.
  unfold pd.columns. induction df as [|[l' c] df IH]; simpl.
  - tauto.
  - destruct (String.eqb_spec l' l) as [->|Hneq].
    + split; [discriminate|]. intros H. exfalso. apply H. now left.
    + rewrite IH. split; [intros H [E|Hin]; [congruence|tauto]|tauto].
Qed.

(** X5 (property_feature_map).  The function returns when the table
    has a column [new_build_flag] and a column [tenure_type]; without
    the first it raises [KeyError] for [new_build_flag], with the first
    and without the second [KeyError] for [tenure_type].  No other
    column matters. *)
Theorem property_feature_map_accepts (training_rows : pd.DataFrame) :
  (In "new_build_flag"%string (pd.columns training_rows) ->
   In "tenure_type"%string (pd.columns training_rows) ->
   returns (property_feature_map training_rows)) /\
  (~ In "new_build_flag"%string (pd.columns training_rows) ->
   property_feature_map training_rows = Raise (KeyError "new_build_flag")) /\
  (In "new_build_flag"%string (pd.columns training_rows) ->
   ~ In "tenure_type"%string (pd.columns training_rows) ->
   property_feature_map training_rows = Raise (KeyError "tenure_type")).
Proof.
  unfold property_feature_map. cbn [pd.getitem_columns].
  pose proof (filter_label_nil training_rows "new_build_flag") as Hnb.
  pose proof (filter_label_nil training_rows "tenure_type") as Htt.
  destruct (filter (fun c => String.eqb (fst c) "new_build_flag") training_rows)
    as [|c1 l1];
  destruct (filter (fun c => String.eqb (fst c) "tenure_type") training_rows)
    as [|c2 l2]; cbn [bind].
  - split; [|split].
    + intros H. exfalso. now apply (proj1 Hnb).
    + reflexivity.
    + intros H. exfalso. now apply (proj1 Hnb).
  - split; [|split].
    + intros H. exfalso. now apply (proj1 Hnb).
    + reflexivity.
    + intros H. exfalso. now apply (proj1 Hnb).
  - split; [|split].
    + intros _ H. exfalso. now apply (proj1 Htt).
    + intros H. apply Hnb in H. discriminate.
    + reflexivity.
  - split; [|split].
    + intros _ _. eexists. reflexivity.
    + intros H. apply Hnb in H. discriminate.
    + intros _ H. apply Htt in H. discriminate.
Qed.

Lemma cell_eqb_Str (s : string) (c : pd.cell) :
  pd.cell_eqb (pd.Str s) c = true -> c = pd.Str s.
Proof.
  destruct c; simpl; try discriminate.
  intros H. apply String.eqb_eq in H. now subst.
Qed.

(** X6 (property_feature_map).  A value outside the two known ones is
    not refused: it is in the result as it was, in [new_build_flag]
    when it is neither N nor Y, in [tenure_type] when it is neither L
    nor F. *)
Theorem property_feature_map_keeps_unknown_values (training_rows : pd.DataFrame)
    (new_build tenure : list pd.cell) :
  NoDup (pd.columns training_rows) ->
  pd.lookup training_rows "new_build_flag" = Some new_build ->
  pd.lookup training_rows "tenure_type" = Some tenure ->
  exists new_build' tenure',
    property_feature_map training_rows
    = Ok [("new_build_flag"%string, new_build'); ("tenure_type"%string, tenure')] /\
    (forall i c, nth_error new_build i = Some c ->
                 c <> pd.Str "N" -> c <> pd.Str "Y" ->
                 nth_error new_build' i = Some c) /\
    (forall i c, nth_error tenure i = Some c ->
                 c <> pd.Str "L" -> c <> pd.Str "F" ->
                 nth_error tenure' i = Some c).
Proof.
  intros Hnd Hnb Htt.
  unfold property_feature_map. cbn [pd.getitem_columns].
  rewrite (filter_unique_column _ _ _ Hnd Hnb), (filter_unique_column _ _ _ Hnd Htt).
  cbn.
  do 2 eexists. split; [reflexivity|].
  split; intros i c Hi H1 H2; rewrite nth_error_map, Hi; cbn [option_map];
    f_equal; unfold pd.replace_cell; cbn [find fst];
    match goal with
    | |- context [pd.cell_eqb (pd.Str ?a) c] =>
        destruct (pd.cell_eqb (pd.Str a) c) eqn:E1;
        [apply cell_eqb_Str in E1; congruence|]
    end;
    match goal with
    | |- context [pd.cell_eqb (pd.Str ?a) c] =>
        destruct (pd.cell_eqb (pd.Str a) c) eqn:E2;
        [apply cell_eqb_Str in E2; congruence|]
    end; reflexivity.
Qed.

(** ** cross_val: too few samples, arrays of different lengths *)

(** X7 (cross_val).  With fewer than two rows of features [cross_val]
    raises, whatever the prices: with no row the mean divides by zero,
    with one row the index, or the regression on an empty training set,
    fails. *)
Theorem cross_val_raises_below_two_samples (prices : list Qc) (features : sm.matrix)
    (ridge : bool) (penalty : Qc) :
  List.length features < 2 ->
  raises (cross_val prices features ridge penalty).
Proof.
  intros HN. destruct features as [|x [|x' features]]; [| |simpl in HN; lia].
  - unfold cross_val. cbn. now eexists.
  - unfold cross_val. cbn [cross_val_loop cross_val_step].
    destruct prices as [|p prices]; [cbn; now eexists|].
    cbn [getitem nth_error bind]. unfold np.delete at 1. cbn [List.length Nat.ltb Nat.leb firstn skipn app bind].
    unfold np.delete. cbn [List.length Nat.ltb Nat.leb firstn skipn app bind].
    unfold sm.OLS. cbn [List.length].
    destruct (List.length prices =? 0); cbn; now eexists.
Qed.

(** X8 (cross_val).  When there are rows of features and the number of
    prices is not the number of rows, [cross_val] raises in the first
    turn of the loop. *)
Theorem cross_val_raises_on_length_mismatch (prices : list Qc) (features : sm.matrix)
    (ridge : bool) (penalty : Qc) :
  features <> [] ->
  List.length prices <> List.length features ->
  raises (cross_val prices features ridge penalty).
Proof.
  intros Hne Hlen. destruct features as [|x features]; [congruence|].
  unfold cross_val. cbn [cross_val_loop cross_val_step].
  destruct prices as [|p prices]; [cbn; now eexists|].
  cbn [getitem nth_error bind]. unfold np.delete at 1. cbn [List.length Nat.ltb Nat.leb firstn skipn app bind].
  unfold np.delete. cbn [List.length Nat.ltb Nat.leb firstn skipn app bind].
  unfold sm.OLS. cbn [List.length] in Hlen.
  assert (E : (List.length prices =? List.length features) = false)
    by (apply Nat.eqb_neq; lia).
  rewrite E. cbn. now eexists.
Qed.

(** ** cross_val: every sample is predicted from the others *)

Lemma loo_predictions_length (penalty : Qc) (todo : list (sm.row * Qc)) :
  forall before, List.length (loo_predictions penalty before todo) = List.length todo.
Proof.
  induction todo as [|s todo IH]; intros before; simpl; [reflexivity|].
  now rewrite IH.
Qed.

Lemma loo_errors_length (penalty : Qc) (todo : list (sm.row * Qc)) :
  forall before, List.length (loo_errors penalty before todo) = List.length todo.
Proof.
  induction todo as [|s todo IH]; intros before; simpl; [reflexivity|].
  now rewrite IH.
Qed.

Lemma loo_predictions_nth (penalty : Qc) (todo : list (sm.row * Qc)) :
  forall before i s,
  nth_error todo i = Some s ->
  nth_error (loo_predictions penalty before todo) i
  = Some (loo_predict penalty (before ++ firstn i todo ++ skipn (S i) todo) (fst s)).
Proof.
  induction todo as [|t todo IH]; intros before i s Hi.
  - destruct i; discriminate.
  - destruct i as [|i]; cbn [loo_predictions nth_error] in *.
    + injection Hi as <-. reflexivity.
    + rewrite (IH _ _ _ Hi). cbn [firstn skipn app].
      now rewrite <- app_assoc.
Qed.

Lemma loo_errors_nth (penalty : Qc) (todo : list (sm.row * Qc)) :
  forall before i s,
  nth_error todo i = Some s ->
  nth_error (loo_errors penalty before todo) i
  = Some (percentage_error
            (loo_predict penalty (before ++ firstn i todo ++ skipn (S i) todo) (fst s))
            (snd s)).
Proof.
  induction todo as [|t todo IH]; intros before i s Hi.
  - destruct i; discriminate.
  - destruct i as [|i]; cbn [loo_errors nth_error] in *.
    + injection Hi as <-. reflexivity.
    + rewrite (IH _ _ _ Hi). cbn [firstn skipn app].
      now rewrite <- app_assoc.
Qed.

Lemma nth_error_combine {A B} (a : list A) (b : list B) (i : nat) (x : A) (y : B) :
  nth_error a i = Some x -> nth_error b i = Some y ->
  nth_error (combine a b) i = Some (x, y).
Proof.
  revert b i. induction a as [|x0 a IH]; intros [|y0 b] [|i]; simpl; try discriminate.
  - now intros [= ->] [= ->].
  - apply IH.
Qed.

Lemma skipn_combine {A B} (n : nat) (a : list A) (b : list B) :
  skipn n (combine a b) = combine (skipn n a) (skipn n b).
Proof.
  revert a b. induction n as [|n IH]; intros [|x a] [|y b]; simpl; try reflexivity.
  - now destruct (skipn n a).
  - apply IH.
Qed.

Lemma combine_without {A B} (a : list A) (b : list B) (i : nat) :
  List.length a = List.length b ->
  firstn i (combine a b) ++ skipn (S i) (combine a b)
  = combine (firstn i a ++ skipn (S i) a) (firstn i b ++ skipn (S i) b).
Proof.
  intros Hlen. rewrite combine_firstn, skipn_combine.
  symmetry. apply combine_app.
  rewrite !length_firstn. lia.
Qed.

(** X9 (cross_val).  With two samples or more (as many prices as rows,
    rows of one length) [cross_val] returns.  The prediction at position
    [i] is that of the model fitted on all the samples but sample [i],
    its error is the percentage error of this prediction against price
    [i]; the average is the sum of the errors over their number, and
    the correlation is that of the prices with the predictions. *)
Theorem cross_val_is_leave_one_out (k : nat) (prices : list Qc)
    (features : sm.matrix) (ridge : bool) (penalty : Qc) :
  List.length prices = List.length features ->
  2 <= List.length features ->
  Forall (fun r => List.length r = k) features ->
  exists predictions errors,
    cross_val prices features ridge penalty
    = Ok (div (py_sum errors) (of_nat (List.length features)),
          corrcoef (map Fin prices) predictions) /\
    List.length predictions = List.length features /\
    List.length errors = List.length features /\
    forall i x y,
      nth_error features i = Some x ->
      nth_error prices i = Some y ->
      let others := combine (firstn i features ++ skipn (S i) features)
                            (firstn i prices ++ skipn (S i) prices) in
      nth_error predictions i = Some (loo_predict penalty others x) /\
      nth_error errors i = Some (percentage_error (loo_predict penalty others x) y).
Proof.
  intros Hlen HN Hrect.
  exists (loo_predictions penalty [] (combine features prices)),
         (loo_errors penalty [] (combine features prices)).
  split; [now apply (cross_val_spec k)|].
  assert (Hc : List.length (combine features prices) = List.length features)
    by (rewrite length_combine; lia).
  split; [now rewrite loo_predictions_length|].
  split; [now rewrite loo_errors_length|].
  intros i x y Hx Hy others.
  pose proof (nth_error_combine _ _ _ _ _ Hx Hy) as Hxy.
  rewrite (loo_predictions_nth _ _ _ _ _ Hxy), (loo_errors_nth _ _ _ _ _ Hxy).
  cbn [app fst snd]. unfold others.
  now rewrite combine_without by lia.
Qed.

(** X10 (cross_val).  The prediction for a sample does not use the price
    of that sample: with another price at position [i] and everything
    else the same, the prediction at position [i] is the same. *)
Theorem cross_val_prediction_ignores_own_price (k : nat)
    (ppre ppost : list Qc) (fpre fpost : sm.matrix) (x : sm.row) (y y' : Qc)
    (ridge : bool) (penalty : Qc) :
  List.length ppre = List.length fpre ->
  List.length ppost = List.length fpost ->
  1 <= List.length (fpre ++ fpost) ->
  Forall (fun r => List.length r = k) (fpre ++ x :: fpost) ->
  exists avg avg' predictions predictions' prediction,
    cross_val (ppre ++ y :: ppost) (fpre ++ x :: fpost) ridge penalty
    = Ok (avg, corrcoef (map Fin (ppre ++ y :: ppost)) predictions) /\
    cross_val (ppre ++ y' :: ppost) (fpre ++ x :: fpost) ridge penalty
    = Ok (avg', corrcoef (map Fin (ppre ++ y' :: ppost)) predictions') /\
    nth_error predictions (List.length fpre) = Some prediction /\
    nth_error predictions' (List.length fpre) = Some prediction.
Proof.
  intros Hpre Hpost HN Hrect.
  assert (Hl : forall z, List.length (ppre ++ z :: ppost)
                         = List.length (fpre ++ x :: fpost)).
  { intros z. rewrite !length_app. simpl. lia. }
  assert (HN2 : 2 <= List.length (fpre ++ x :: fpost)).
  { rewrite length_app in *. simpl. lia. }
  rewrite (cross_val_spec k _ _ _ _ (Hl y) HN2 Hrect).
  rewrite (cross_val_spec k _ _ _ _ (Hl y') HN2 Hrect).
  assert (Hnth : forall z,
    nth_error (loo_predictions penalty []
                 (combine (fpre ++ x :: fpost) (ppre ++ z :: ppost)))
              (List.length fpre)
    = Some (loo_predict penalty (combine fpre ppre ++ combine fpost ppost) x)).
  { intros z.
    assert (Hz : nth_error (combine (fpre ++ x :: fpost) (ppre ++ z :: ppost))
                           (List.length fpre) = Some (x, z)).
    { apply nth_error_combine.
      - rewrite nth_error_app2, Nat.sub_diag by lia. reflexivity.
      - rewrite nth_error_app2, <- Hpre, Nat.sub_diag by lia. reflexivity. }
    rewrite (loo_predictions_nth _ _ _ _ _ Hz). cbn [app fst].
    rewrite combine_without by apply eq_sym, Hl.
    rewrite firstn_middle, skipn_middle.
    rewrite <- Hpre, firstn_middle, skipn_middle.
    now rewrite combine_app by lia. }
  do 5 eexists. split; [reflexivity|]. split; [reflexivity|].
  split; apply Hnth.
Qed.

(** ** cross_val without rounding: the order of the samples *)


(** ** cross_val in binary64: positive prices *)

Lemma binary_round_aux_sign (m e : Z) (l : SpecFloat.location) :
  binary64.SFsign_clear (SpecFloat.binary_round_aux FloatOps.prec FloatOps.emax false m e l).
Proof.
  unfold SpecFloat.binary_round_aux.
  destruct (SpecFloat.shr_fexp _ _ m e l) as [mrs' e'].
  destruct (SpecFloat.shr_fexp _ _ _ e' SpecFloat.loc_Exact) as [mrs'' e''].
  destruct (SpecFloat.shr_m mrs''); [exact I| |exact I].
  destruct (Z.leb e'' _); exact I.
Qed.

Lemma binary_round_sign (m : positive) (e : Z) :
  binary64.SFsign_clear (SpecFloat.binary_round FloatOps.prec FloatOps.emax false m e).
Proof.
  unfold SpecFloat.binary_round.
  destruct (SpecFloat.shl_align m e _) as [mz ez]. apply binary_round_aux_sign.
Qed.

Lemma SFabs_sign (x : SpecFloat.spec_float) : binary64.SFsign_clear (SpecFloat.SFabs x).
Proof. destruct x; exact I. Qed.

Lemma SFmul_sign (x y : SpecFloat.spec_float) :
  binary64.SFsign_clear x -> binary64.SFsign_clear y ->
  binary64.SFsign_clear (SpecFloat.SFmul FloatOps.prec FloatOps.emax x y).
Proof.
  destruct x as [[|]|[|]| |[|] mx ex], y as [[|]|[|]| |[|] my ey];
    cbn [binary64.SFsign_clear SpecFloat.SFmul xorb]; try tauto.
  intros _ _. apply binary_round_aux_sign.
Qed.

Lemma SFdiv_sign (x y : SpecFloat.spec_float) :
  binary64.SFsign_clear x -> binary64.SFsign_clear y ->
  binary64.SFsign_clear (SpecFloat.SFdiv FloatOps.prec FloatOps.emax x y).
Proof.
  destruct x as [[|]|[|]| |[|] mx ex], y as [[|]|[|]| |[|] my ey];
    cbn [binary64.SFsign_clear SpecFloat.SFdiv xorb]; try tauto.
  intros _ _.
  destruct (SpecFloat.SFdiv_core_binary _ _ _ _ _ _) as [[mz ez] lz].
  apply binary_round_aux_sign.
Qed.

Lemma SFadd_sign (x y : SpecFloat.spec_float) :
  binary64.SFsign_clear x -> binary64.SFsign_clear y ->
  binary64.SFsign_clear (SpecFloat.SFadd FloatOps.prec FloatOps.emax x y).
Proof.
  destruct x as [[|]|[|]| |[|] mx ex], y as [[|]|[|]| |[|] my ey];
    cbn [binary64.SFsign_clear SpecFloat.SFadd]; try tauto.
  intros _ _. cbn [SpecFloat.cond_Zopp Z.add].
  cbn [SpecFloat.binary_normalize]. apply binary_round_sign.
Qed.

Lemma abs_sign_clear (x : PrimFloat.float) : binary64.sign_clear (PrimFloat.abs x).
Proof. unfold binary64.sign_clear. rewrite FloatAxioms.abs_spec. apply SFabs_sign. Qed.

Lemma mul_sign_clear (x y : PrimFloat.float) :
  binary64.sign_clear x -> binary64.sign_clear y ->
  binary64.sign_clear (PrimFloat.mul x y).
Proof.
  intros Hx Hy. unfold binary64.sign_clear. rewrite FloatAxioms.mul_spec.
  now apply SFmul_sign.
Qed.

Lemma div_sign_clear (x y : PrimFloat.float) :
  binary64.sign_clear x -> binary64.sign_clear y ->
  binary64.sign_clear (PrimFloat.div x y).
Proof.
  intros Hx Hy. unfold binary64.sign_clear. rewrite FloatAxioms.div_spec.
  now apply SFdiv_sign.
Qed.

Lemma add_sign_clear (x y : PrimFloat.float) :
  binary64.sign_clear x -> binary64.sign_clear y ->
  binary64.sign_clear (PrimFloat.add x y).
Proof.
  intros Hx Hy. unfold binary64.sign_clear. rewrite FloatAxioms.add_spec.
  now apply SFadd_sign.
Qed.

(** A positive float has its sign clear. *)
Lemma positive_sign_clear (x : PrimFloat.float) :
  PrimFloat.ltb binary64.zero x = true -> binary64.sign_clear x.
Proof.
  rewrite FloatAxioms.ltb_spec. unfold binary64.sign_clear.
  change (FloatOps.Prim2SF binary64.zero) with (SpecFloat.S754_zero false).
  destruct (FloatOps.Prim2SF x) as [[|]|[|]| |[|] m e];
    cbn; intros H; try exact I; discriminate.
Qed.

(** A float whose sign is clear is not below zero. *)
Lemma sign_clear_not_negative (x : PrimFloat.float) :
  binary64.sign_clear x -> PrimFloat.ltb x binary64.zero = false.
Proof.
  rewrite FloatAxioms.ltb_spec. unfold binary64.sign_clear.
  change (FloatOps.Prim2SF binary64.zero) with (SpecFloat.S754_zero false).
  destruct (FloatOps.Prim2SF x) as [[|]|[|]| |[|] m e];
    cbn; intros H; try reflexivity; contradiction.
Qed.

Lemma of_nat_sign_clear (n : nat) : binary64.sign_clear (binary64.of_nat n).
Proof.
  unfold binary64.of_nat, binary64.of_Z, binary64.sign_clear.
  destruct (Z.of_nat n) as [|p|p] eqn:E; [| |lia].
  - exact I.
  - rewrite FloatAxioms.of_uint63_spec.
    pose proof (Uint63.to_Z_bounded (Uint63.of_Z (Zpos p))) as Hb.
    destruct (Uint63.to_Z (Uint63.of_Z (Zpos p))) as [|q|q]; [exact I| |lia].
    cbn [SpecFloat.binary_normalize]. apply binary_round_sign.
Qed.

Lemma percentage_error_sign_clear (prediction target_price : PrimFloat.float) :
  PrimFloat.ltb binary64.zero target_price = true ->
  binary64.sign_clear (binary64.percentage_error prediction target_price).
Proof.
  intros Hpos. unfold binary64.percentage_error.
  apply div_sign_clear; [|now apply positive_sign_clear].
  apply mul_sign_clear; [exact I|apply abs_sign_clear].
Qed.

Lemma fold_add_sign_clear (l : list PrimFloat.float) : forall acc,
  binary64.sign_clear acc -> Forall binary64.sign_clear l ->
  binary64.sign_clear (fold_left PrimFloat.add l acc).
Proof.
  induction l as [|x l IH]; intros acc Hacc Hl; cbn [fold_left]; [assumption|].
  apply Forall_cons_iff in Hl. destruct Hl as [Hx Hl].
  apply IH; [now apply add_sign_clear|assumption].
Qed.

(** Every turn of the loop appends the percentage error of the price at
    its index. *)
Lemma binary64_cross_val_step_errors (lib : binary64.Regression)
    (prices : list PrimFloat.float) (features : list (list PrimFloat.float))
    (penalty : PrimFloat.float) (i : nat) (x : list PrimFloat.float)
    (predictions errors predictions' errors' : list PrimFloat.float) :
  binary64.cross_val_step lib prices features penalty i x (predictions, errors)
  = Ok (predictions', errors') ->
  exists prediction target_price,
    nth_error prices i = Some target_price /\
    errors' = errors ++ [binary64.percentage_error prediction target_price].
Proof.
  unfold binary64.cross_val_step, getitem.
  destruct (nth_error prices i) as [target_price|]; [|discriminate].
  cbn [bind].
  destruct (np.delete features i) as [train_features|]; [|discriminate].
  destruct (np.delete prices i) as [train_prices|]; [|discriminate].
  cbn [bind].
  destruct (binary64.OLS lib train_prices train_features) as [m|]; [|discriminate].
  cbn [bind].
  destruct (binary64.fit_regularized lib m penalty) as [res|]; [|discriminate].
  cbn [bind].
  destruct (binary64.predict lib res x) as [predicted|]; [|discriminate].
  cbn [bind].
  destruct (nth_error predicted 0) as [prediction|]; [|discriminate].
  cbn [bind].
  destruct (setitem predictions i prediction) as [p'|]; [|discriminate].
  cbn [bind]. intros [= <- <-].
  exists prediction, target_price. now split.
Qed.

Lemma binary64_cross_val_loop_errors (lib : binary64.Regression)
    (prices : list PrimFloat.float) (features : list (list PrimFloat.float))
    (penalty : PrimFloat.float) (P : PrimFloat.float -> Prop) :
  (forall prediction target_price,
     In target_price prices ->
     P (binary64.percentage_error prediction target_price)) ->
  forall todo i predictions errors predictions' errors',
  binary64.cross_val_loop lib prices features penalty i todo (predictions, errors)
  = Ok (predictions', errors') ->
  Forall P errors -> Forall P errors'.
Proof.
  intros HP. induction todo as [|x todo IH];
    intros i predictions errors predictions' errors'; cbn [binary64.cross_val_loop].
  - now intros [= <- <-].
  - destruct (binary64.cross_val_step lib prices features penalty i x
                (predictions, errors)) as [[p1 e1]|] eqn:Hstep; [|discriminate].
    cbn [bind]. intros Hloop Herr.
    apply (IH _ _ _ _ _ Hloop).
    destruct (binary64_cross_val_step_errors _ _ _ _ _ _ _ _ _ _ Hstep)
      as (prediction & target_price & Hi & ->).
    apply Forall_app. split; [assumption|].
    constructor; [|constructor].
    apply HP. eapply nth_error_In; eassumption.
Qed.

(** X11 (cross_val).  In binary64 and whatever the regression library
    answers: when every price is positive and [cross_val] returns, the
    average percentage error is not negative.  It is zero, a positive
    number, [+inf] (a term or the sum may overflow) or [NaN]. *)
Theorem cross_val_average_not_negative (lib : binary64.Regression)
    (prices : list PrimFloat.float) (features : list (list PrimFloat.float))
    (ridge : bool) (penalty avg_pct_error : PrimFloat.float)
    (corr : binary64.correlation) :
  Forall (fun p => PrimFloat.ltb binary64.zero p = true) prices ->
  binary64.cross_val lib prices features ridge penalty = Ok (avg_pct_error, corr) ->
  PrimFloat.ltb avg_pct_error binary64.zero = false.
Proof.
  intros Hpos. unfold binary64.cross_val.
  destruct (binary64.cross_val_loop lib prices features penalty 0 features
              (repeat binary64.zero (List.length prices), []))
    as [[predictions errors]|] eqn:Hloop; [|discriminate].
  cbn [bind]. unfold binary64.py_mean.
  destruct errors as [|e rest]; [discriminate|].
  cbn [bind]. intros [= <- _].
  apply sign_clear_not_negative, div_sign_clear; [|apply of_nat_sign_clear].
  apply fold_add_sign_clear; [exact I|].
  assert (HP : forall prediction target_price,
             In target_price prices ->
             binary64.sign_clear (binary64.percentage_error prediction target_price)).
  { intros prediction target_price Hin. apply percentage_error_sign_clear.
    rewrite Forall_forall in Hpos. now apply Hpos. }
  apply (binary64_cross_val_loop_errors lib prices features penalty
           binary64.sign_clear HP _ _ _ _ _ _ Hloop). constructor.
Qed.

(** ** cross_val in binary64: what the loop computes *)

(** X20 (cross_val).  In binary64 and whatever the regression library
    answers, a call that returns has computed this: for every row [i] of
    [features], a prediction from the samples other than [i], stored at
    index [i] of an array as long as [prices] that is zero elsewhere; the
    percentage error of each prediction against the price at its index;
    the sum of these errors from the integer 0, in the order of the rows,
    divided by the number of rows.  The array of predictions is what
    [np.corrcoef] receives with [prices]. *)
Theorem binary64_cross_val_returns (lib : binary64.Regression)
    (prices : list PrimFloat.float) (features : list (list PrimFloat.float))
    (ridge : bool) (penalty avg_pct_error : PrimFloat.float)
    (corr : binary64.correlation) :
  binary64.cross_val lib prices features ridge penalty = Ok (avg_pct_error, corr) ->
  exists predictions percentage_errors,
    corr = binary64.corrcoef prices predictions /\
    avg_pct_error
    = PrimFloat.div (fold_left PrimFloat.add percentage_errors binary64.zero)
                    (binary64.of_nat (List.length features)) /\
    features <> [] /\
    List.length features <= List.length prices /\
    List.length predictions = List.length prices /\
    List.length percentage_errors = List.length features /\
    (forall i target_features,
       nth_error features i = Some target_features ->
       exists prediction target_price,
         nth_error predictions i = Some prediction /\
         nth_error prices i = Some target_price /\
         binary64.predict_without lib prices features penalty i target_features
         = Ok prediction /\
         nth_error percentage_errors i
         = Some (binary64.percentage_error prediction target_price)) /\
    (forall i, List.length features <= i < List.length prices ->
       nth_error predictions i = Some binary64.zero).
Proof.
  unfold binary64.cross_val.
  destruct (binary64.cross_val_loop lib prices features penalty 0 features
              (repeat binary64.zero (List.length prices), []))
    as [[predictions errors]|] eqn:Hloop; [|discriminate].
  cbn [bind]. unfold binary64.py_mean.
  destruct (binary64_cross_val_loop_spec _ _ _ _ _ _ _ _ _ _ Hloop)
    as (Hlp & Hle & Hout & _ & Hnew).
  rewrite repeat_length in Hlp. cbn [List.length Nat.add] in Hle, Hnew, Hout.
  destruct errors as [|e rest] eqn:Eerr; [discriminate|]. rewrite <- Eerr in *.
  cbn [bind]. intros [= <- <-].
  assert (Hfe : features <> []).
  { intros ->. subst errors. discriminate. }
  assert (Hlen : List.length features <= List.length prices).
  { destruct (Nat.le_gt_cases (List.length features) (List.length prices))
      as [|Hgt]; [assumption|].
    destruct (nth_error features (List.length prices)) as [y|] eqn:Ey.
    - destruct (Hnew _ _ Ey) as (tp & Htp & _).
      assert (List.length prices < List.length prices)
        by (apply nth_error_Some; rewrite Htp; discriminate).
      lia.
    - apply nth_error_None in Ey. lia. }
  exists predictions, errors. split; [reflexivity|].
  split; [unfold binary64.py_sum; now rewrite Hle|].
  split; [assumption|]. split; [assumption|]. split; [assumption|].
  split; [assumption|]. split.
  - intros i x Hx. destruct (Hnew i x Hx) as (tp & Htp & Hi & Hpw & Herr).
    rewrite repeat_length in Hi.
    exists (nth i predictions binary64.zero), tp.
    split; [apply nth_error_nth'; lia|]. split; [assumption|].
    split; [assumption|]. rewrite <- Herr. apply nth_error_nth'.
    assert (i < List.length features)
      by (apply nth_error_Some; rewrite Hx; discriminate).
    lia.
  - intros i Hi. rewrite (nth_error_nth' predictions binary64.zero) by lia.
    rewrite Hout by lia. f_equal.
    apply nth_repeat.
Qed.

(** ** cross_val in binary64: a price that is zero *)

Lemma SFdiv_zero_not_finite (x : SpecFloat.spec_float) (s : bool) :
  binary64.SFisfinite (SpecFloat.SFdiv FloatOps.prec FloatOps.emax x (SpecFloat.S754_zero s))
  = false.
Proof. destruct x; reflexivity. Qed.

Lemma SFdiv_not_finite_l (x y : SpecFloat.spec_float) :
  binary64.SFisfinite x = false ->
  binary64.SFisfinite (SpecFloat.SFdiv FloatOps.prec FloatOps.emax x y) = false.
Proof. destruct x, y; cbn; intros H; try reflexivity; discriminate. Qed.

Lemma SFadd_not_finite_l (x y : SpecFloat.spec_float) :
  binary64.SFisfinite x = false ->
  binary64.SFisfinite (SpecFloat.SFadd FloatOps.prec FloatOps.emax x y) = false.
Proof.
  destruct x as [sx|sx| |sx mx ex], y as [sy|sy| |sy my ey];
    cbn [binary64.SFisfinite SpecFloat.SFadd];
    intros H; try reflexivity; try discriminate;
    now destruct sx, sy.
Qed.

Lemma SFadd_not_finite_r (x y : SpecFloat.spec_float) :
  binary64.SFisfinite y = false ->
  binary64.SFisfinite (SpecFloat.SFadd FloatOps.prec FloatOps.emax x y) = false.
Proof.
  destruct x as [sx|sx| |sx mx ex], y as [sy|sy| |sy my ey];
    cbn [binary64.SFisfinite SpecFloat.SFadd];
    intros H; try reflexivity; try discriminate;
    now destruct sx, sy.
Qed.

(** A float equal to zero is one of the two zeros of the format. *)
Lemma eqb_zero (x : PrimFloat.float) :
  PrimFloat.eqb x binary64.zero = true ->
  exists s, FloatOps.Prim2SF x = SpecFloat.S754_zero s.
Proof.
  rewrite FloatAxioms.eqb_spec.
  change (FloatOps.Prim2SF binary64.zero) with (SpecFloat.S754_zero false).
  destruct (FloatOps.Prim2SF x) as [s|[|]| |[|] m e]; cbn; intros H;
    try discriminate. now exists s.
Qed.

(** The percentage error against a price that is zero is an infinity or
    a [NaN]. *)
Lemma binary64_percentage_error_zero_price (prediction target_price : PrimFloat.float) :
  PrimFloat.eqb target_price binary64.zero = true ->
  binary64.isfinite (binary64.percentage_error prediction target_price) = false.
Proof.
  intros H. destruct (eqb_zero _ H) as [s Hs].
  unfold binary64.isfinite, binary64.percentage_error.
  rewrite FloatAxioms.div_spec, Hs. apply SFdiv_zero_not_finite.
Qed.

Lemma fold_add_not_finite_acc (l : list PrimFloat.float) : forall acc,
  binary64.isfinite acc = false ->
  binary64.isfinite (fold_left PrimFloat.add l acc) = false.
Proof.
  induction l as [|x l IH]; intros acc Hacc; cbn [fold_left]; [assumption|].
  apply IH. unfold binary64.isfinite in *. rewrite FloatAxioms.add_spec.
  now apply SFadd_not_finite_l.
Qed.

Lemma fold_add_not_finite (l : list PrimFloat.float) : forall acc x,
  In x l -> binary64.isfinite x = false ->
  binary64.isfinite (fold_left PrimFloat.add l acc) = false.
Proof.
  induction l as [|y l IH]; intros acc x Hin Hx; [contradiction|].
  cbn [fold_left]. destruct Hin as [->|Hin].
  - apply fold_add_not_finite_acc. unfold binary64.isfinite in *.
    rewrite FloatAxioms.add_spec. now apply SFadd_not_finite_r.
  - now apply (IH _ x).
Qed.

(** X21 (cross_val).  In binary64 and whatever the regression library
    answers: when the price of one of the samples that the loop visits is
    zero ([0.0] or [-0.0]) and [cross_val] returns, the average
    percentage error is an infinity or a [NaN]. *)
Theorem binary64_zero_price_average_not_finite (lib : binary64.Regression)
    (prices : list PrimFloat.float) (features : list (list PrimFloat.float))
    (ridge : bool) (penalty avg_pct_error : PrimFloat.float)
    (corr : binary64.correlation) (i : nat) (target_price : PrimFloat.float) :
  binary64.cross_val lib prices features ridge penalty = Ok (avg_pct_error, corr) ->
  i < List.length features ->
  nth_error prices i = Some target_price ->
  PrimFloat.eqb target_price binary64.zero = true ->
  binary64.isfinite avg_pct_error = false.
Proof.
  unfold binary64.cross_val.
  destruct (binary64.cross_val_loop lib prices features penalty 0 features
              (repeat binary64.zero (List.length prices), []))
    as [[predictions errors]|] eqn:Hloop; [|discriminate].
  cbn [bind]. unfold binary64.py_mean.
  destruct (binary64_cross_val_loop_spec _ _ _ _ _ _ _ _ _ _ Hloop)
    as (_ & Hle & _ & _ & Hnew).
  cbn [List.length Nat.add] in Hle, Hnew.
  destruct errors as [|e rest] eqn:Eerr; [discriminate|]. rewrite <- Eerr in *.
  cbn [bind]. intros [= <- _] Hi Hprice Hzero.
  unfold binary64.isfinite. rewrite FloatAxioms.div_spec.
  apply SFdiv_not_finite_l.
  destruct (nth_error features i) as [x|] eqn:Hx;
    [|apply nth_error_None in Hx; lia].
  destruct (Hnew i x Hx) as (tp & Htp & _ & _ & Herr).
  assert (tp = target_price) by congruence. subst tp.
  apply (fold_add_not_finite errors binary64.zero
           (nth i errors binary64.zero)).
  - apply nth_In. lia.
  - rewrite Herr. now apply binary64_percentage_error_zero_price.
Qed.

(** ** get_training_samples: what a call leaves behind *)

(** X12 (get_training_samples).  A call that returns has created one
    connection and closed it, has printed nothing, and returns the rows
    of the requested property type among those the data source answered,
    in their order. *)
Theorem get_training_samples_returns (S : Services) (latitude longitude : Qc)
    (date : Z) (property_type : string) (date_range : Z) (area_range : Qc)
    (limit : nat) (w w' : World) (samples : list Sample.t) :
  ~ In (created w) (open_connections w) ->
  get_training_samples S latitude longitude date property_type
    date_range area_range limit w = (Ok samples, w') ->
  open_connections w' = open_connections w /\
  created w' = Datatypes.S (created w) /\
  stdout w' = stdout w /\
  Forall (fun s => Sample.property_type s = property_type) samples /\
  exists conditions rows answered,
    query_table S (created w) "prices_coordinates_data" conditions limit = Ok rows /\
    price_coordinates_data_to_df S rows = Ok answered /\
    samples = filter (fun s => String.eqb (Sample.property_type s) property_type)
                     answered.
Proof.
  intros Hfresh. unfold get_training_samples, bindM, lift, create_connection, close, ret.
  destruct (get_credentials S _) as [credentials|]; [|discriminate].
  repeat match goal with
         | |- context [dict_getitem ?d ?k] =>
             destruct (dict_getitem d k); [|discriminate]
         end.
  destruct (connect S _ _ _ _ _); [|discriminate].
  destruct (query_table S _ _ _ _) as [rows|] eqn:Eq; [|discriminate].
  destruct (price_coordinates_data_to_df S _) as [answered|] eqn:Edf; [|discriminate].
  intros [= <- <-]. cbn [open_connections created stdout List.remove].
  destruct (Nat.eq_dec (created w) (created w)); [|congruence].
  split; [now apply notin_remove|]. split; [reflexivity|]. split; [reflexivity|].
  split.
  - apply Forall_forall. intros s Hs. apply filter_In in Hs.
    now apply String.eqb_eq.
  - eexists _, rows, answered. repeat split; eassumption.
Qed.

(** X13 (get_training_samples).  When the credentials lack one of the
    five entries the function reads, it raises [KeyError] for an entry
    that is missing, before any connection is created: the world is
    as it was. *)
Theorem get_training_samples_missing_credential (S : Services)
    (latitude longitude : Qc) (date : Z) (property_type : string)
    (date_range : Z) (area_range : Qc) (limit : nat) (w : World)
    (credentials : pd.dict string string) (key : string) :
  get_credentials S "credentials.yaml" = Ok credentials ->
  In key ["username"; "password"; "url"; "port"; "name"]%string ->
  pd.lookup credentials key = None ->
  exists missing,
    pd.lookup credentials missing = None /\
    get_training_samples S latitude longitude date property_type
      date_range area_range limit w = (Raise (KeyError missing), w).
Proof.
  intros Hc Hkey Hnone.
  unfold get_training_samples, bindM, lift. rewrite Hc.
  unfold dict_getitem.
  destruct (pd.lookup credentials "username") eqn:E1;
    [|exists "username"%string; now split].
  destruct (pd.lookup credentials "password") eqn:E2;
    [|exists "password"%string; now split].
  destruct (pd.lookup credentials "url") eqn:E3;
    [|exists "url"%string; now split].
  destruct (pd.lookup credentials "port") eqn:E4;
    [|exists "port"%string; now split].
  destruct (pd.lookup credentials "name") eqn:E5;
    [|exists "name"%string; now split].
  simpl in Hkey.
  destruct Hkey as [<-|[<-|[<-|[<-|[<-|[]]]]]]; congruence.
Qed.

(** The function prints nothing, whether it returns or raises. *)
Lemma get_training_samples_stdout (S : Services) (latitude longitude : Qc)
    (date : Z) (property_type : string) (date_range : Z) (area_range : Qc)
    (limit : nat) (w w' : World) (r : result (list Sample.t)) :
  get_training_samples S latitude longitude date property_type
    date_range area_range limit w = (r, w') ->
  stdout w' = stdout w.
Proof.
  unfold get_training_samples, bindM, lift, create_connection, close, ret.
  destruct (get_credentials S _) as [credentials|]; [|now intros [= _ <-]].
  repeat match goal with
         | |- context [dict_getitem ?d ?k] =>
             destruct (dict_getitem d k); [|now intros [= _ <-]]
         end.
  destruct (connect S _ _ _ _ _); [|now intros [= _ <-]].
  destruct (query_table S _ _ _ _); [|now intros [= _ <-]].
  destruct (price_coordinates_data_to_df S _); now intros [= _ <-].
Qed.

(** ** predict_price: output and connections *)

(** After [get_training_samples] the statements inside [try] touch no
    connection, and print only when [verbose] is set. *)
Lemma predict_price_body_world (S : Services) (latitude longitude : Qc)
    (date : Z) (property_type : string) (date_range : Z) (area_range : Qc)
    (ridge : bool) (penalty : Qc) (verbose : bool) (w w' : World)
    (r : result (option prediction_tuple)) :
  predict_price_body S latitude longitude date property_type date_range
    area_range ridge penalty verbose w = (r, w') ->
  exists rs w1,
    get_training_samples S latitude longitude date property_type date_range
      area_range 500
      (snd (when verbose (print (Text "Collecting training samples")) w))
    = (rs, w1) /\
    open_connections w' = open_connections w1 /\
    (verbose = false -> stdout w' = stdout w1) /\
    (forall v, r = Ok v -> exists samples, rs = Ok samples).
Proof.
  unfold predict_price_body, bindM, lift, when. intros H.
  destruct verbose; cbn [print ret snd] in *;
    (destruct (get_training_samples _ _ _ _ _ _ _ _ _) as [rs w1] eqn:Egts;
     exists rs, w1; split; [reflexivity|];
     destruct rs as [samples|e];
     [|injection H as <- <-; repeat split; try reflexivity;
       try (intros Hf; discriminate Hf); intros v Hv; discriminate]);
    repeat (cbn beta iota in H;
            match type of H with
            | context [let (_, _) := ?p in _] =>
                is_var p; destruct p
            | context [match ?r with Ok _ => _ | Raise _ => _ end] =>
                destruct r;
                [|injection H as <- <-; repeat split; try reflexivity;
                  try (intros Hf; discriminate Hf); intros v Hv; discriminate]
            end);
    cbn [print ret] in H; cbn beta iota in H;
    injection H as <- <-; repeat split; try reflexivity;
    try (intros Hf; discriminate Hf); intros v _; now eexists.
Qed.

(** X14 (predict_price).  With [verbose=False] a prediction that
    succeeds prints nothing; one that fails prints the diagnostic, and
    nothing else. *)
Theorem predict_price_quiet (S : Services) (latitude longitude : Qc)
    (date : Z) (property_type : string) (date_range : Z) (area_range : Qc)
    (ridge : bool) (penalty : Qc) (w : World) :
  let out := predict_price S (PyNum latitude) (PyNum longitude) date property_type
               date_range area_range ridge penalty false w in
  (exists t, fst out = Ok (Some t) /\ stdout (snd out) = stdout w) \/
  (exists e, fst out = Ok None /\ stdout (snd out) = stdout w ++ [diagnostic e]).
Proof.
  intros out. subst out.
  unfold predict_price, bindM, lift, float, try_except.
  destruct (predict_price_body S latitude longitude date property_type date_range
              area_range ridge penalty false w) as [[r|e] wb] eqn:E.
  - destruct (predict_price_body_returns_tuple _ _ _ _ _ _ _ _ _ _ _ _ _ E) as [t ->].
    destruct (predict_price_body_world _ _ _ _ _ _ _ _ _ _ _ _ _ E)
      as (rs & w1 & Hgts & _ & Hout & _).
    left. exists t. split; [reflexivity|]. cbn [snd when ret] in *.
    rewrite (Hout eq_refl). exact (get_training_samples_stdout _ _ _ _ _ _ _ _ _ _ _ Hgts).
  - destruct (predict_price_body_world _ _ _ _ _ _ _ _ _ _ _ _ _ E)
      as (rs & w1 & Hgts & _ & Hout & _).
    right. exists e. split; [reflexivity|]. cbn [snd when ret print stdout] in *.
    rewrite (Hout eq_refl).
    now rewrite (get_training_samples_stdout _ _ _ _ _ _ _ _ _ _ _ Hgts).
Qed.

(** X15 (predict_price).  A call that returns a prediction leaves the
    connections as they were: the one that was opened for the samples is
    closed. *)
Theorem predict_price_success_closes_connection (S : Services)
    (latitude longitude : Qc)
    (date : Z) (property_type : string) (date_range : Z) (area_range : Qc)
    (ridge : bool) (penalty : Qc) (verbose : bool) (w w' : World)
    (t : prediction_tuple) :
  ~ In (created w) (open_connections w) ->
  predict_price S (PyNum latitude) (PyNum longitude) date property_type
    date_range area_range ridge penalty verbose w = (Ok (Some t), w') ->
  open_connections w' = open_connections w.
Proof.
  intros Hfresh. unfold predict_price, bindM, lift, float, try_except.
  destruct (predict_price_body S latitude longitude date property_type date_range
              area_range ridge penalty verbose w) as [[r|e] wb] eqn:E.
  - intros [= -> <-].
    destruct (predict_price_body_world _ _ _ _ _ _ _ _ _ _ _ _ _ E)
      as (rs & w1 & Hgts & Hconn & _ & Hok).
    destruct (Hok _ eq_refl) as [samples ->].
    rewrite Hconn.
    assert (Hfresh' : ~ In (created (snd (when verbose
                        (print (Text "Collecting training samples")) w)))
                         (open_connections (snd (when verbose
                        (print (Text "Collecting training samples")) w))))
      by (destruct verbose; exact Hfresh).
    rewrite (get_training_samples_closes _ _ _ _ _ _ _ _ _ _ _ Hfresh' Hgts).
    now destruct verbose.
  - cbn. discriminate.
Qed.

(** X16 (predict_price).  When no row of the requested type comes back
    (the table is empty), [idxmax] raises and the call ends softly: it
    prints the diagnostic of the empty [argmax] and returns [None]. *)
Theorem predict_price_empty_table (S : Services) (latitude longitude : Qc)
    (date : Z) (property_type : string) (date_range : Z) (area_range : Qc)
    (ridge : bool) (penalty : Qc) (verbose : bool) (w w1 : World) :
  get_training_samples S latitude longitude date property_type date_range
    area_range 500
    (snd (when verbose (print (Text "Collecting training samples")) w))
  = (Ok [], w1) ->
  predict_price S (PyNum latitude) (PyNum longitude) date property_type
    date_range area_range ridge penalty verbose w
  = (Ok None,
     mkWorld (stdout w1 ++ [diagnostic (ValueError "attempt to get argmax of an empty sequence")])
             (open_connections w1) (created w1)).
Proof.
  intros Hgts.
  unfold predict_price, bindM, lift, float, try_except, predict_price_body, bindM, lift.
  destruct verbose; cbn [when print ret snd] in *; now rewrite Hgts.
Qed.

(** X17 (cross_val, predict_price).  The argument [ridge] has no effect:
    neither [cross_val] nor [predict_price] reads it, the penalty alone
    decides the regularization. *)
Theorem ridge_flag_is_ignored (S : Services) (latitude longitude : pyarg)
    (date : Z) (property_type : string) (date_range : Z) (area_range : Qc)
    (penalty : Qc) (verbose : bool) (w : World)
    (prices : list Qc) (features : sm.matrix) :
  cross_val prices features true penalty = cross_val prices features false penalty /\
  predict_price S latitude longitude date property_type date_range area_range
    true penalty verbose w
  = predict_price S latitude longitude date property_type date_range area_range
      false penalty verbose w.
Proof. split; reflexivity. Qed.

(** ** predict_price: what the prediction is made of *)

Lemma final_prediction (k : nat) (penalty : Qc) (F : sm.matrix) (P : list Qc)
    (x : sm.row) :
  List.length P = List.length F ->
  F <> [] ->
  Forall (fun r => List.length r = k) F ->
  List.length x = k ->
  (m_linear <- sm.OLS P F ;;
   predicted <- sm.predict (sm.fit_regularized m_linear penalty) x ;;
   getitem predicted 0)%py
  = Ok (loo_predict penalty (combine F P) x).
Proof.
  intros Hlen Hne Hrect Hx. unfold sm.OLS.
  rewrite (proj2 (Nat.eqb_eq _ _) Hlen). cbn [negb].
  destruct F as [|r F'] eqn:EF; [congruence|]. rewrite <- EF in *. cbn [bind].
  unfold sm.predict. rewrite params_length. cbn [sm.exog].
  rewrite (ncols_rectangular k F Hrect Hne), Hx, Nat.eqb_refl.
  cbn [bind getitem nth_error]. unfold loo_predict.
  now rewrite map_fst_combine, map_snd_combine by lia.
Qed.

Lemma delete_nth {A} (l : list A) (i : nat) :
  i < List.length l -> np.delete l i = Ok (firstn i l ++ skipn (Datatypes.S i) l).
Proof.
  intros Hi. unfold np.delete. now rewrite (proj2 (Nat.ltb_lt _ _) Hi).
Qed.

Lemma length_without {A} (l : list A) (i : nat) :
  i < List.length l ->
  List.length (firstn i l ++ skipn (Datatypes.S i) l) = List.length l - 1.
Proof.
  intros Hi. rewrite length_app, length_firstn, length_skipn. lia.
Qed.

Lemma Forall_without {A} (P : A -> Prop) (l : list A) (i : nat) :
  Forall P l -> Forall P (firstn i l ++ skipn (Datatypes.S i) l).
Proof.
  intros H. revert i. induction H as [|x l Hx Hl IH]; intros i.
  - now destruct i.
  - destruct i as [|i]; cbn [firstn skipn app]; [assumption|].
    constructor; [assumption|apply IH].
Qed.

(** X18 (predict_price).  With three rows or more, one projected row of
    [k] entries for each, the call returns a prediction.  The actual
    price it reports is the price of the target row; the prediction is
    made for the features of the target row by the model fitted on all
    the other rows, and the cross-validated average and correlation are
    those of the other rows: the target's own price enters none of
    them. *)
Theorem predict_price_predicts_from_the_others (S : Services)
    (latitude longitude : Qc) (date : Z) (property_type : string)
    (date_range : Z) (area_range : Qc) (ridge : bool) (penalty : Qc)
    (verbose : bool) (w w1 : World) (samples : list Sample.t) (target_id : nat)
    (pois_by_features : list (PoiCounts S)) (encoded : pd.DataFrame)
    (features : sm.matrix) (k : nat) :
  get_training_samples S latitude longitude date property_type date_range
    area_range 500
    (snd (when verbose (print (Text "Collecting training samples")) w))
  = (Ok samples, w1) ->
  target_id_of samples latitude longitude date property_type = Ok target_id ->
  extract_pois S samples = Ok pois_by_features ->
  property_feature_map (as_frame samples) = Ok encoded ->
  convert_to_principle_components S pois_by_features encoded default_threshold
  = Ok features ->
  List.length features = List.length samples ->
  Forall (fun r => List.length r = k) features ->
  3 <= List.length samples ->
  exists target_features target avg_percent_error corr,
    nth_error features target_id = Some target_features /\
    nth_error samples target_id = Some target /\
    let other_features :=
      firstn target_id features ++ skipn (Datatypes.S target_id) features in
    let other_prices :=
      firstn target_id (map Sample.price samples)
      ++ skipn (Datatypes.S target_id) (map Sample.price samples) in
    cross_val other_prices other_features ridge penalty
    = Ok (avg_percent_error, corr) /\
    fst (predict_price S (PyNum latitude) (PyNum longitude) date property_type
           date_range area_range ridge penalty verbose w)
    = Ok (Some (loo_predict penalty (combine other_features other_prices)
                            target_features,
                Sample.price target, avg_percent_error, corr)).
Proof.
  intros Hgts Htid Hpois Henc Hconv Hlen Hrect HN.
  assert (Hin : target_id < List.length samples).
  { unfold target_id_of, idxmax in Htid. apply argmax_in_bounds in Htid.
    now rewrite length_map in Htid. }
  destruct (nth_error features target_id) as [x|] eqn:Ex;
    [|apply nth_error_None in Ex; lia].
  destruct (nth_error samples target_id) as [s|] eqn:Es;
    [|apply nth_error_None in Es; lia].
  set (F := firstn target_id features ++ skipn (Datatypes.S target_id) features).
  set (P := firstn target_id (map Sample.price samples)
            ++ skipn (Datatypes.S target_id) (map Sample.price samples)).
  assert (HF : List.length F = List.length samples - 1)
    by (unfold F; rewrite length_without; lia).
  assert (HP : List.length P = List.length samples - 1)
    by (unfold P; rewrite length_without; rewrite length_map; lia).
  assert (HrF : Forall (fun r => List.length r = k) F)
    by (now apply Forall_without).
  assert (Hx : List.length x = k).
  { rewrite Forall_forall in Hrect. apply Hrect. eapply nth_error_In; eassumption. }
  assert (Hcv := cross_val_spec k P F ridge penalty ltac:(lia) ltac:(lia) HrF).
  exists x, s. do 2 eexists. split; [reflexivity|]. split; [reflexivity|].
  cbn zeta. fold F P. split; [exact Hcv|].
  unfold predict_price, bindM, lift, float, try_except, predict_price_body, bindM, lift.
  assert (Hfinal := final_prediction k penalty F P x ltac:(lia)
                      ltac:(intros E; rewrite E in HF; simpl in HF; lia) HrF Hx).
  unfold bind in Hfinal.
  destruct verbose; cbn [when print ret snd] in *;
    rewrite Hgts, Htid; cbn [print ret];
    rewrite Hpois, Henc, Hconv;
    unfold getitem at 1; rewrite Ex;
    rewrite (delete_nth features target_id) by lia; fold F;
    unfold getitem at 1; rewrite nth_error_map, Es; cbn [option_map];
    rewrite (delete_nth (map Sample.price samples) target_id)
      by (rewrite length_map; lia); fold P;
    rewrite Hcv;
    destruct (sm.OLS P F) as [m|]; try discriminate;
    destruct (sm.predict (sm.fit_regularized m penalty) x) as [pr|]; try discriminate;
    rewrite Hfinal; reflexivity.
Qed.

(** ** The loop over the samples *)

(** X19 (predict_price, lines 25-28).  The loop asks for the points of
    interest once for each sample, at the coordinates of that sample, and
    keeps the counts in the order of the samples. *)
Theorem extract_pois_one_per_sample (S : Services) (samples : list Sample.t)
    (pois_by_features : list (PoiCounts S)) :
  extract_pois S samples = Ok pois_by_features ->
  Forall2 (fun s counts =>
             exists pois,
               get_pois S (Sample.latitude s) (Sample.longitude s) (KEYS_DICT S)
                        (Q2Qc (1 # 100)%Q) (Q2Qc (1 # 100)%Q) = Ok pois /\
               count_pois_by_features S pois (KEYS_DICT S) TAGS = Ok counts)
          samples pois_by_features.
Proof.
  revert pois_by_features.
  induction samples as [|s samples IH]; intros counts; cbn [extract_pois].
  - intros [= <-]. constructor.
  - destruct (get_pois S _ _ _ _ _) as [pois|] eqn:Ep; [|discriminate].
    cbn [bind].
    destruct (count_pois_by_features S pois _ _) as [c|] eqn:Ec; [|discriminate].
    cbn [bind].
    destruct (extract_pois S samples) as [rest|]; [|discriminate].
    cbn [bind]. intros [= <-].
    constructor; [now exists pois|now apply IH].
Qed.

(** ** The further properties at concrete inputs *)

(** X1 at the example services and two samples. *)
Lemma convert_to_principle_components_shape_witness :
  exists (pca : PCA) (transformed : sm.matrix) (k : nat),
    1 <= k <= List.length (explained_variance_ratio_ pca) /\
    List.length [[1%Qc]; [1%Qc]] = List.length transformed /\
    Forall (fun r => List.length r <= k) [[1%Qc]; [1%Qc]].
Proof.
  destruct (convert_to_principle_components_shape (database_services [] true)
              [0%Qc; 0%Qc]
              [("new_build_flag"%string, [pd.Int 0; pd.Int 1]);
               ("tenure_type"%string, [pd.Int 1; pd.Int 1])]
              default_threshold [[1%Qc]; [1%Qc]] eq_refl)
    as (n & corr & pca & df & transformed & k & _ & _ & Hk & Hlen & Hrows & _).
  now exists pca, transformed, k.
Defined.



(** X6 at a table with the new-build flag U. *)
Lemma property_feature_map_keeps_unknown_values_witness :
  exists new_build' tenure',
    property_feature_map [("new_build_flag"%string, [pd.Str "U"; pd.Str "Y"]);
                          ("tenure_type"%string, [pd.Str "F"; pd.Str "L"])]
    = Ok [("new_build_flag"%string, new_build'); ("tenure_type"%string, tenure')] /\
    nth_error new_build' 0 = Some (pd.Str "U").
Proof.
  destruct (property_feature_map_keeps_unknown_values
              [("new_build_flag"%string, [pd.Str "U"; pd.Str "Y"]);
               ("tenure_type"%string, [pd.Str "F"; pd.Str "L"])]
              [pd.Str "U"; pd.Str "Y"] [pd.Str "F"; pd.Str "L"])
    as (nb & tt & Hres & Hnb & _).
  - repeat constructor; simpl; intuition discriminate.
  - reflexivity.
  - reflexivity.
  - exists nb, tt. split; [exact Hres|].
    apply (Hnb 0 (pd.Str "U") eq_refl); discriminate.
Defined.

(** X7 at one sample. *)
Lemma cross_val_raises_below_two_samples_witness :
  raises (cross_val [Qc_of 1 1] [[Qc_of 1 1]] false 0%Qc).
Proof.
  apply cross_val_raises_below_two_samples. simpl. lia.
Defined.

(** X8 at three prices for two rows. *)
Lemma cross_val_raises_on_length_mismatch_witness :
  raises (cross_val [Qc_of 1 1; Qc_of 2 1; Qc_of 3 1]
                    [[Qc_of 1 1]; [Qc_of 1 1]] false 0%Qc).
Proof.
  apply cross_val_raises_on_length_mismatch.
  - discriminate.
  - simpl. lia.
Defined.

(** X9 at three samples: the prediction for the first one is that of
    the model fitted on the second and the third. *)
Lemma cross_val_is_leave_one_out_witness :
  exists predictions errors,
    cross_val [Qc_of 15 1; Qc_of 1 1; Qc_of 2 1]
              [[Qc_of 10 1]; [Qc_of 1 1]; [Qc_of 1 1]] false 0%Qc
    = Ok (div (py_sum errors) (of_nat 3),
          corrcoef (map Fin [Qc_of 15 1; Qc_of 1 1; Qc_of 2 1]) predictions) /\
    nth_error predictions 0
    = Some (loo_predict 0%Qc [([Qc_of 1 1], Qc_of 1 1); ([Qc_of 1 1], Qc_of 2 1)]
                        [Qc_of 10 1]).
Proof.
  destruct (cross_val_is_leave_one_out 1
              [Qc_of 15 1; Qc_of 1 1; Qc_of 2 1]
              [[Qc_of 10 1]; [Qc_of 1 1]; [Qc_of 1 1]] false 0%Qc)
    as (predictions & errors & Hcv & _ & _ & Hnth).
  - reflexivity.
  - simpl. lia.
  - repeat constructor.
  - exists predictions, errors. split; [exact Hcv|].
    exact (proj1 (Hnth 0 [Qc_of 10 1] (Qc_of 15 1) eq_refl eq_refl)).
Defined.

(** X10 at three samples, the price of the first being 15 or 40. *)
Lemma cross_val_prediction_ignores_own_price_witness :
  exists avg avg' predictions predictions' prediction,
    cross_val [Qc_of 15 1; Qc_of 1 1; Qc_of 2 1]
              [[Qc_of 10 1]; [Qc_of 1 1]; [Qc_of 1 1]] false 0%Qc
    = Ok (avg, corrcoef (map Fin [Qc_of 15 1; Qc_of 1 1; Qc_of 2 1]) predictions) /\
    cross_val [Qc_of 40 1; Qc_of 1 1; Qc_of 2 1]
              [[Qc_of 10 1]; [Qc_of 1 1]; [Qc_of 1 1]] false 0%Qc
    = Ok (avg', corrcoef (map Fin [Qc_of 40 1; Qc_of 1 1; Qc_of 2 1]) predictions') /\
    nth_error predictions 0 = Some prediction /\
    nth_error predictions' 0 = Some prediction.
Proof.
  apply (cross_val_prediction_ignores_own_price 1
           [] [Qc_of 1 1; Qc_of 2 1] [] [[Qc_of 1 1]; [Qc_of 1 1]]
           [Qc_of 10 1] (Qc_of 15 1) (Qc_of 40 1) false 0%Qc).
  - reflexivity.
  - reflexivity.
  - simpl. lia.
  - repeat constructor.
Defined.

(** X11 at three samples with the prices 15, 1 and 2, for the exact
    ridge fit rounded to the nearest float. *)
Lemma cross_val_average_not_negative_witness :
  exists avg_pct_error corr,
    binary64.cross_val binary64.rounded_ridge
      [binary64.of_Z 15; binary64.of_Z 1; binary64.of_Z 2]
      [[binary64.of_Z 10]; [binary64.of_Z 1]; [binary64.of_Z 1]]
      false binary64.zero
    = Ok (avg_pct_error, corr) /\
    PrimFloat.ltb avg_pct_error binary64.zero = false.
Proof.
  do 2 eexists. split.
  - vm_compute. reflexivity.
  - eapply (cross_val_average_not_negative binary64.rounded_ridge
              [binary64.of_Z 15; binary64.of_Z 1; binary64.of_Z 2]
              [[binary64.of_Z 10]; [binary64.of_Z 1]; [binary64.of_Z 1]]
              false binary64.zero).
    + repeat constructor.
    + vm_compute. reflexivity.
Defined.

(** X20 at three samples with the prices 15, 1 and 2, for the exact
    ridge fit rounded to the nearest float. *)
Lemma binary64_cross_val_returns_witness :
  exists avg_pct_error corr,
    binary64.cross_val binary64.rounded_ridge
      [binary64.of_Z 15; binary64.of_Z 1; binary64.of_Z 2]
      [[binary64.of_Z 10]; [binary64.of_Z 1]; [binary64.of_Z 1]]
      false binary64.zero
    = Ok (avg_pct_error, corr) /\
    exists predictions percentage_errors,
      corr = binary64.corrcoef
               [binary64.of_Z 15; binary64.of_Z 1; binary64.of_Z 2] predictions /\
      avg_pct_error
      = PrimFloat.div (fold_left PrimFloat.add percentage_errors binary64.zero)
                      (binary64.of_nat 3) /\
      List.length predictions = 3 /\
      List.length percentage_errors = 3.
Proof.
  do 2 eexists. split; [vm_compute; reflexivity|].
  destruct (binary64_cross_val_returns binary64.rounded_ridge
              [binary64.of_Z 15; binary64.of_Z 1; binary64.of_Z 2]
              [[binary64.of_Z 10]; [binary64.of_Z 1]; [binary64.of_Z 1]]
              false binary64.zero _ _ ltac:(vm_compute; reflexivity))
    as (predictions & errors & Hc & Ha & _ & _ & Hlp & Hle & _).
  exists predictions, errors. repeat split; assumption.
Defined.

(** X21 at three samples, the first with the price 0, for the exact ridge
    fit rounded to the nearest float: the average is [+inf]. *)
Lemma binary64_zero_price_average_not_finite_witness :
  exists avg_pct_error corr,
    binary64.cross_val binary64.rounded_ridge
      [binary64.of_Z 0; binary64.of_Z 1; binary64.of_Z 2]
      [[binary64.of_Z 1]; [binary64.of_Z 1]; [binary64.of_Z 1]]
      false binary64.zero
    = Ok (avg_pct_error, corr) /\
    avg_pct_error = PrimFloat.infinity /\
    binary64.isfinite avg_pct_error = false.
Proof.
  do 2 eexists. split; [vm_compute; reflexivity|]. split; [reflexivity|].
  apply (binary64_zero_price_average_not_finite binary64.rounded_ridge
           [binary64.of_Z 0; binary64.of_Z 1; binary64.of_Z 2]
           [[binary64.of_Z 1]; [binary64.of_Z 1]; [binary64.of_Z 1]]
           false binary64.zero _
           (binary64.corrcoef
              [binary64.of_Z 0; binary64.of_Z 1; binary64.of_Z 2]
              [PrimFloat.div (binary64.of_Z 3) (binary64.of_Z 2);
               binary64.of_Z 1; PrimFloat.div (binary64.of_Z 1) (binary64.of_Z 2)])
           0 (binary64.of_Z 0)).
  - vm_compute. reflexivity.
  - cbn [List.length]. lia.
  - reflexivity.
  - vm_compute. reflexivity.
Defined.

(** X12 at the example database, from the empty world. *)
Lemma get_training_samples_returns_witness :
  exists w' samples,
    get_training_samples
      (database_services [house 738000 250000; house 738001 300000] true)
      (Qc_of 515 10) (Qc_of (-1) 10) 738000 "D" 28 (Qc_of 2 100) 500 empty_world
    = (Ok samples, w') /\
    open_connections w' = [] /\ created w' = 1 /\ stdout w' = [] /\
    Forall (fun s => Sample.property_type s = "D"%string) samples.
Proof.
  do 2 eexists. split; [vm_compute; reflexivity|].
  match goal with
  | |- open_connections ?w' = _ /\ _ /\ _ /\ Forall _ ?samples =>
      destruct (get_training_samples_returns
                  (database_services [house 738000 250000; house 738001 300000] true)
                  (Qc_of 515 10) (Qc_of (-1) 10) 738000 "D" 28 (Qc_of 2 100) 500
                  empty_world w' samples)
        as (H1 & H2 & H3 & H4 & _)
  end.
  - simpl. tauto.
  - vm_compute. reflexivity.
  - repeat split; assumption.
Defined.

(** X13 at credentials without a port. *)
Lemma get_training_samples_missing_credential_witness :
  exists missing,
    pd.lookup [("username", "analyst"); ("password", "secret");
               ("url", "localhost")]%string missing = None /\
    get_training_samples
      (with_credentials (database_services [] true)
         [("username", "analyst"); ("password", "secret");
          ("url", "localhost")]%string)
      (Qc_of 515 10) (Qc_of (-1) 10) 738000 "D" 28 (Qc_of 2 100) 500 empty_world
    = (Raise (KeyError missing), empty_world).
Proof.
  apply (get_training_samples_missing_credential
           (with_credentials (database_services [] true)
              [("username", "analyst"); ("password", "secret");
               ("url", "localhost")]%string)
           (Qc_of 515 10) (Qc_of (-1) 10) 738000 "D" 28 (Qc_of 2 100) 500 empty_world
           [("username", "analyst"); ("password", "secret");
            ("url", "localhost")]%string "name"%string).
  - reflexivity.
  - simpl. tauto.
  - reflexivity.
Defined.

(** X15 at the table of four houses. *)
Lemma predict_price_success_closes_connection_witness :
  exists t w',
    predict_price
      (database_services [house 738001 200000; house 738000 250000;
                          house 737999 300000; house 738002 260000] true)
      (PyNum (Qc_of 515 10)) (PyNum (Qc_of (-1) 10)) 738000 "D" 28 (Qc_of 2 100)
      false 0%Qc false empty_world
    = (Ok (Some t), w') /\
    open_connections w' = open_connections empty_world.
Proof.
  do 2 eexists.
  match goal with
  | |- ?run = (Ok (Some ?t), ?w') /\ _ =>
      assert (H : run = (Ok (Some t), w')) by (vm_compute; reflexivity)
  end.
  split; [exact H|].
  refine (predict_price_success_closes_connection _ _ _ _ _ _ _ _ _ _ _ _ _ _ H).
  simpl. tauto.
Defined.

(** X16 at a database without any sale. *)
Lemma predict_price_empty_table_witness :
  predict_price (database_services [] true)
    (PyNum (Qc_of 515 10)) (PyNum (Qc_of (-1) 10)) 738000 "D" 28 (Qc_of 2 100)
    false 0%Qc true empty_world
  = (Ok None,
     mkWorld
       ([Text "Collecting training samples"]
        ++ [diagnostic (ValueError "attempt to get argmax of an empty sequence")])
       [] 1).
Proof.
  apply (predict_price_empty_table (database_services [] true)
           (Qc_of 515 10) (Qc_of (-1) 10) 738000 "D" 28 (Qc_of 2 100)
           false 0%Qc true empty_world
           (mkWorld [Text "Collecting training samples"] [] 1)).
  vm_compute. reflexivity.
Defined.

(** X18 at the table of four houses, the second one being the target. *)
Lemma predict_price_predicts_from_the_others_witness :
  exists prediction avg_percent_error corr,
    fst (predict_price
           (database_services [house 738001 200000; house 738000 250000;
                               house 737999 300000; house 738002 260000] true)
           (PyNum (Qc_of 515 10)) (PyNum (Qc_of (-1) 10)) 738000 "D" 28
           (Qc_of 2 100) false 0%Qc false empty_world)
    = Ok (Some (prediction, Sample.price (house 738000 250000),
                avg_percent_error, corr)).
Proof.
  edestruct (predict_price_predicts_from_the_others
               (database_services [house 738001 200000; house 738000 250000;
                                   house 737999 300000; house 738002 260000] true)
               (Qc_of 515 10) (Qc_of (-1) 10) 738000 "D" 28 (Qc_of 2 100)
               false 0%Qc false empty_world)
    as (target_features & target & avg & corr & _ & Htarget & _ & Hrun).
  - vm_compute. reflexivity.
  - vm_compute. reflexivity.
  - vm_compute. reflexivity.
  - vm_compute. reflexivity.
  - vm_compute. reflexivity.
  - reflexivity.
  - instantiate (1 := 1). repeat constructor.
  - simpl. lia.
  - injection Htarget as <-. do 3 eexists. exact Hrun.
Defined.

(** X19 at two houses: the service is asked at the coordinates of each. *)
Lemma extract_pois_one_per_sample_witness :
  Forall2 (fun s counts =>
             exists pois,
               get_pois (database_services [] true)
                        (Sample.latitude s) (Sample.longitude s)
                        (KEYS_DICT (database_services [] true))
                        (Q2Qc (1 # 100)%Q) (Q2Qc (1 # 100)%Q) = Ok pois /\
               count_pois_by_features (database_services [] true) pois
                 (KEYS_DICT (database_services [] true)) TAGS = Ok counts)
          [house 738000 250000; house 738001 300000] [0%Qc; 0%Qc].
Proof.
  apply (extract_pois_one_per_sample (database_services [] true)
           [house 738000 250000; house 738001 300000] [0%Qc; 0%Qc]).
  reflexivity.
Defined.

